(** * inversify-koa-utils: the metadata-driven request dispatcher

    A shallow embedding of [src/decorators.ts] and [src/server.ts]:
    the decorators that record metadata on a controller class, the
    build-time route compiler ([build], [registerControllers],
    [resolveMiddleware]) and the request-time handlers
    ([handlerFactory], [extractParameters], [getParam],
    [_getCurrentPrincipal]).

    The collaborators that live outside the repository (the Koa
    application, the koa-router instance, the inversify container, the
    request context) are modelled by the calls the code makes on them;
    what the JavaScript engine and the routing library decide (the
    members of a primitive value, the methods of a router) is a
    parameter of the model. *)

From Stdlib Require Import String List ZArith Bool Arith Lia Permutation.
Import ListNotations.
Open Scope string_scope.
Open Scope list_scope.

Set Implicit Arguments.

(** ** Exceptions *)

Inductive Error : Type :=
| TypeError (msg : string)
| RangeError (msg : string)
| NotBound (what : string)      (* the container's "No matching bindings found" *)
| Failure (msg : string).       (* a plain Error *)

Inductive Result (A : Type) : Type :=
| Ok (a : A)
| Throw (e : Error).

Arguments Ok {A} a.
Arguments Throw {A} e.

Definition bind {A B : Type} (r : Result A) (k : A -> Result B) : Result B :=
  match r with
  | Ok a => k a
  | Throw e => Throw e
  end.

Declare Scope js_scope.
Delimit Scope js_scope with js.
Notation "x <- r ;; k" := (bind r (fun x => k))
  (at level 61, r at next level, right associativity) : js_scope.
Open Scope js_scope.

(** ** JavaScript values

    Numbers are restricted to integers (no NaN, no fractions).  An
    object is the list of the properties a read [o[k]] finds on it, its
    own and the ones it inherits alike; an object with the members of
    [Object.prototype] lists them (see [plain_object]).  What a read
    finds on a string, a number, a boolean or a function is decided by
    the engine ([Engine]).  A function value is one of the closures that
    occur in the code or a function of the host application, known by
    name. *)

#[warnings="-register-all"]
Inductive value : Type :=
| VUndefined
| VNull
| VBool (b : bool)
| VNum (n : Z)
| VStr (s : string)
| VObj (props : list (string * value))
| VFn (f : fn)
with fn : Type :=
| FnResolve (v : value)                    (* (..) => Promise.resolve(v), awaited *)
| FnCookieGet (jar : list (string * string)) (* the cookie reader get(name) of a cookie jar *)
| FnHost (name : string).                  (* a function defined by the application *)

Definition object := list (string * value).

(** ToBoolean. *)
Definition truthy (v : value) : bool :=
  match v with
  | VUndefined | VNull => false
  | VBool b => b
  | VNum n => negb (n =? 0)%Z
  | VStr s => negb (s =? EmptyString)
  | VObj _ | VFn _ => true
  end.

(** [v === undefined || v === null]. *)
Definition nullish (v : value) : bool :=
  match v with
  | VUndefined | VNull => true
  | _ => false
  end.

(** [a || b] on values whose right operand has no effect. *)
Definition js_or (a b : value) : value := if truthy a then a else b.

Fixpoint assoc {A : Type} (k : string) (l : list (string * A)) : option A :=
  match l with
  | [] => None
  | (k', v) :: t => if k =? k' then Some v else assoc k t
  end.

(** [o[k] = v] on the property list: an existing key keeps its place. *)
Fixpoint obj_set {A : Type} (k : string) (v : A) (l : list (string * A)) : list (string * A) :=
  match l with
  | [] => [(k, v)]
  | (k', v') :: t => if k =? k' then (k, v) :: t else (k', v') :: obj_set k v t
  end.

(** The JavaScript engine: the value of [v[k]] for a string, a number,
    a boolean or a function [v] (a string's length, characters and
    methods, the methods of the other built-in prototypes). *)
Class Engine : Type := {
  builtin_member : value -> string -> value
}.

(** [v[k]]: reading a property of [undefined] or [null] throws. *)
Definition get_prop {E : Engine} (v : value) (k : string) : Result value :=
  match v with
  | VUndefined | VNull => Throw (TypeError "Cannot read property of undefined or null")
  | VObj props => Ok (match assoc k props with Some x => x | None => VUndefined end)
  | VBool _ | VNum _ | VStr _ | VFn _ => Ok (builtin_member v k)
  end.

(** [o[k] = v] in strict mode, on an object or a primitive value (the
    code assigns to no function). *)
Definition set_prop (o : value) (k : string) (v : value) : Result value :=
  match o with
  | VObj props => Ok (VObj (obj_set k v props))
  | _ => Throw (TypeError "Cannot set property")
  end.

(** The members every ordinary object inherits from
    [Object.prototype], and an object literal with the given own
    properties: a read finds the own properties first. *)
Definition Object_members : object :=
  [("constructor", VFn (FnHost "Object"));
   ("hasOwnProperty", VFn (FnHost "Object.prototype.hasOwnProperty"));
   ("isPrototypeOf", VFn (FnHost "Object.prototype.isPrototypeOf"));
   ("propertyIsEnumerable", VFn (FnHost "Object.prototype.propertyIsEnumerable"));
   ("toLocaleString", VFn (FnHost "Object.prototype.toLocaleString"));
   ("toString", VFn (FnHost "Object.prototype.toString"));
   ("valueOf", VFn (FnHost "Object.prototype.valueOf"));
   ("__defineGetter__", VFn (FnHost "Object.prototype.__defineGetter__"));
   ("__defineSetter__", VFn (FnHost "Object.prototype.__defineSetter__"));
   ("__lookupGetter__", VFn (FnHost "Object.prototype.__lookupGetter__"));
   ("__lookupSetter__", VFn (FnHost "Object.prototype.__lookupSetter__"))].

Definition Object_prototype : value :=
  VObj (Object_members ++ [("__proto__", VNull)]).

Definition plain_object (own : object) : value :=
  VObj (own ++ Object_members ++ [("__proto__", Object_prototype)]).

(** The property key of a [paramType] argument: [source[null]] reads
    the property named "null". *)
Definition key_of (paramType : option string) : string :=
  match paramType with
  | Some s => s
  | None => "null"
  end.

(** [paramType === s]. *)
Definition is_type (paramType : option string) (s : string) : bool :=
  match paramType with
  | Some t => t =? s
  | None => false
  end.

(** JavaScript arrays: [None] is a hole. *)
Definition array := list (option value).

(** [a[i] = v]: writing past the end extends the array with holes. *)
Fixpoint array_set (i : nat) (v : value) (a : array) : array :=
  match i, a with
  | O, [] => [Some v]
  | O, _ :: t => Some v :: t
  | S j, [] => None :: array_set j v []
  | S j, x :: t => x :: array_set j v t
  end.

(** [a.push(x, y)]. *)
Definition push2 (a : array) (x y : value) : array := a ++ [Some x; Some y].

(** [...a]: a hole is passed as [undefined]. *)
Definition spread (a : array) : list value :=
  map (fun x => match x with Some v => v | None => VUndefined end) a.

(** ** constants.ts *)

Inductive PARAMETER_TYPE : Type :=
| REQUEST | RESPONSE | PARAMS | QUERY | BODY | HEADERS | COOKIES | NEXT | CTX
| UNLISTED.   (* a runtime number outside the enum *)

Definition DEFAULT_ROUTING_ROOT_PATH : string := "/".

(** ** interfaces.ts *)

Inductive ServiceIdentifier : Type :=
| SidString (s : string)
| SidSymbol (description : string).

(** [interfaces.Middleware]: a service identifier or an inline handler. *)
Inductive Middleware : Type :=
| MwId (id : ServiceIdentifier)
| MwHandler (name : string).

Record ControllerMetadata : Type := {
  cm_path : string;
  cm_middleware : list Middleware;
  cm_target : string            (* target.name, the class name *)
}.

Record ControllerMethodMetadata : Type := {
  mm_path : string;
  mm_middleware : list Middleware;
  mm_method : string;
  mm_target : string;
  mm_key : string
}.

Record ParameterMetadata : Type := {
  parameterName : string;
  index : nat;
  type : PARAMETER_TYPE
}.

Definition ControllerParameterMetadata := list (string * list ParameterMetadata).

Record AuthorizeAllMetadata : Type := {
  aa_requiredRoles : list string;
  aa_target : string
}.

Record AuthorizeMetadata : Type := {
  am_requiredRoles : list string;
  am_target : string;
  am_key : string
}.

(** The metadata that [Reflect.defineMetadata] keeps for one class, one
    slot per key of [METADATA_KEY]. *)
Record Class : Type := {
  class_name : string;
  meta_controller : option ControllerMetadata;
  meta_controllerMethod : option (list ControllerMethodMetadata);
  meta_controllerParameter : option ControllerParameterMetadata;
  meta_authorizeAll : option AuthorizeAllMetadata;
  meta_authorize : option (list (string * AuthorizeMetadata))
}.

Definition new_class (name : string) : Class :=
  {| class_name := name;
     meta_controller := None;
     meta_controllerMethod := None;
     meta_controllerParameter := None;
     meta_authorizeAll := None;
     meta_authorize := None |}.

(** ** decorators.ts *)

Definition controller (path : string) (middleware : list Middleware) (target : Class) : Class :=
  {| class_name := class_name target;
     meta_controller :=
       Some {| cm_path := path; cm_middleware := middleware; cm_target := class_name target |};
     meta_controllerMethod := meta_controllerMethod target;
     meta_controllerParameter := meta_controllerParameter target;
     meta_authorizeAll := meta_authorizeAll target;
     meta_authorize := meta_authorize target |}.

(** [getMetadataList]: the stored list, or a fresh empty one. *)
Definition getMetadataList {A : Type} (stored : option (list A)) : list A :=
  match stored with
  | Some l => l
  | None => []
  end.

Definition httpMethod (method path : string) (middleware : list Middleware)
    (key : string) (target : Class) : Class :=
  let metadata := {| mm_path := path; mm_middleware := middleware; mm_method := method;
                     mm_target := class_name target; mm_key := key |} in
  {| class_name := class_name target;
     meta_controller := meta_controller target;
     meta_controllerMethod := Some (getMetadataList (meta_controllerMethod target) ++ [metadata]);
     meta_controllerParameter := meta_controllerParameter target;
     meta_authorizeAll := meta_authorizeAll target;
     meta_authorize := meta_authorize target |}.

Definition all := httpMethod "all".
Definition httpGet := httpMethod "get".
Definition httpPost := httpMethod "post".
Definition httpPut := httpMethod "put".
Definition httpPatch := httpMethod "patch".
Definition httpHead := httpMethod "head".
Definition httpDelete := httpMethod "delete".

Definition authorizeAll (requiredRoles : list string) (target : Class) : Class :=
  {| class_name := class_name target;
     meta_controller := meta_controller target;
     meta_controllerMethod := meta_controllerMethod target;
     meta_controllerParameter := meta_controllerParameter target;
     meta_authorizeAll :=
       Some {| aa_requiredRoles := requiredRoles; aa_target := class_name target |};
     meta_authorize := meta_authorize target |}.

(** [authorize(...requiredRoles)(target, key)].  The rules are named
    properties of an array: [metadataList[key] = metadata] throws a
    RangeError for the key "length", and for the key "__proto__" it
    changes the prototype of the array and none of its properties. *)
Definition authorize (requiredRoles : list string) (key : string) (target : Class)
    : Result Class :=
  let metadata := {| am_requiredRoles := requiredRoles; am_target := class_name target;
                     am_key := key |} in
  let metadataList := getMetadataList (meta_authorize target) in
  if key =? "length" then Throw (RangeError "Invalid array length")
  else
    Ok {| class_name := class_name target;
          meta_controller := meta_controller target;
          meta_controllerMethod := meta_controllerMethod target;
          meta_controllerParameter := meta_controllerParameter target;
          meta_authorizeAll := meta_authorizeAll target;
          meta_authorize :=
            Some (if key =? "__proto__" then metadataList
                  else obj_set key metadata metadataList) |}.

(** The class after a decorator that did not throw. *)
Definition applied (r : Result Class) : Class :=
  match r with
  | Ok c => c
  | Throw _ => new_class EmptyString
  end.

(** [params(type, parameterName)(target, methodName, index)]: the new
    entry is put in front of the method's list ([unshift]). *)
Definition params (ty : PARAMETER_TYPE) (name : string)
    (methodName : string) (idx : nat) (target : Class) : Class :=
  let parameterMetadata := {| parameterName := name; index := idx; type := ty |} in
  let metadataList :=
    match meta_controllerParameter target with
    | None => []
    | Some l => l
    end in
  let parameterMetadataList :=
    match assoc methodName metadataList with
    | Some l => parameterMetadata :: l
    | None => [parameterMetadata]
    end in
  {| class_name := class_name target;
     meta_controller := meta_controller target;
     meta_controllerMethod := meta_controllerMethod target;
     meta_controllerParameter := Some (obj_set methodName parameterMetadataList metadataList);
     meta_authorizeAll := meta_authorizeAll target;
     meta_authorize := meta_authorize target |}.

(** [paramDecoratorFactory]: an omitted (or empty) name is "default". *)
Definition paramDecoratorFactory (parameterType : PARAMETER_TYPE) (name : option string) :=
  let name' := match name with
               | Some n => if n =? EmptyString then "default" else n
               | None => "default"
               end in
  params parameterType name'.

Definition request := paramDecoratorFactory REQUEST.
Definition response := paramDecoratorFactory RESPONSE.
Definition requestParam := paramDecoratorFactory PARAMS.
Definition queryParam := paramDecoratorFactory QUERY.
Definition requestBody := paramDecoratorFactory BODY.
Definition requestHeaders := paramDecoratorFactory HEADERS.
Definition cookies := paramDecoratorFactory COOKIES.
Definition next := paramDecoratorFactory NEXT.
Definition context := paramDecoratorFactory CTX.

(** ** server.ts: argument extraction *)

Section Dispatcher.

Context {E : Engine}.

(** What the functions of the host application return when called
    from the argument extraction (the [get] of a cookie accessor, and any
    other function found in its place). *)
Variable host_call : string -> list value -> Result value.

Definition call_fn (f : fn) (args : list value) : Result value :=
  match f with
  | FnResolve v => Ok v
  | FnCookieGet jar =>
      match args with
      | VStr n :: _ => Ok (match assoc n jar with Some s => VStr s | None => VUndefined end)
      | _ => Ok VUndefined
      end
  | FnHost name => host_call name args
  end.

(** [o.m(...args)]. *)
Definition call_method (o : value) (m : string) (args : list value) : Result value :=
  f <- get_prop o m ;;
  match f with
  | VFn g => call_fn g args
  | _ => Throw (TypeError "is not a function")
  end.

Definition checkQueryParam (paramType : option string) (param : value) (name : string)
    : Result value :=
  if is_type paramType "query" then Ok VUndefined
  else if is_type paramType "cookies" then call_method param "get" [VStr name]
  else Ok param.

Definition getParam (source : value) (paramType : option string) (name : string)
    : Result value :=
  p <- get_prop source (key_of paramType) ;;
  let param := js_or p source in
  v <- get_prop param name ;;
  if truthy v then Ok v else checkQueryParam paramType param name.

(** The [switch] of [extractParameters]: the value bound to one
    parameter. *)
Definition extract_arg (ctx next : value) (item : ParameterMetadata) : Result value :=
  match type item with
  | RESPONSE => r <- get_prop ctx "response" ;; getParam r None (parameterName item)
  | REQUEST => r <- get_prop ctx "request" ;; getParam r None (parameterName item)
  | NEXT => Ok next
  | CTX => getParam ctx None (parameterName item)
  | PARAMS => getParam ctx (Some "params") (parameterName item)
  | QUERY => getParam ctx (Some "query") (parameterName item)
  | BODY => r <- get_prop ctx "request" ;; getParam r (Some "body") (parameterName item)
  | HEADERS => r <- get_prop ctx "request" ;; getParam r (Some "headers") (parameterName item)
  | COOKIES => getParam ctx (Some "cookies") (parameterName item)
  | UNLISTED => Ok ctx
  end.

(** The [for (let item of params)] loop. *)
Fixpoint extract_loop (ctx next : value) (params : list ParameterMetadata) (args : array)
    : Result array :=
  match params with
  | [] => Ok args
  | item :: rest =>
      v <- extract_arg ctx next item ;;
      extract_loop ctx next rest (array_set (index item) v args)
  end.

Definition extractParameters (ctx next : value) (params : list ParameterMetadata)
    : Result array :=
  match params with
  | [] => Ok [Some ctx; Some next]
  | _ => args <- extract_loop ctx next params [] ;; Ok (push2 args ctx next)
  end.

(** The [getParam] of the second copy of the server in the repository
    (the one without authorization support): it answers a QUERY binding
    named "default" before any lookup. *)
Definition getParam_guarded (source : value) (paramType : option string) (name : string)
    : Result value :=
  p <- get_prop source (key_of paramType) ;;
  let param := js_or p source in
  if is_type paramType "query" && (name =? "default") then Ok param
  else
    v <- get_prop param name ;;
    if truthy v then Ok v else checkQueryParam paramType param name.

(** ** The collaborators

    The inversify container, as the code consults it: the controllers
    bound under [TYPE.Controller] (each known by its class, the
    [constructor] the metadata is attached to), [isBound] and [get] for a
    middleware item, named controller instances, and the provider bound
    under [TYPE.AuthProvider].  [isBound] and [get] are two operations of
    the container: [get] may throw for an identifier that is bound (an
    ambiguous match, a failing constructor). *)

Inductive Instance : Type :=
| IHandler (name : string)          (* a function *)
| IBaseMiddleware (name : string)   (* instanceof BaseMiddleware *)
| IObject (name : string).          (* any other object *)

(** [getPrincipal(ctx)] returns the principal and may change the
    context it is handed: the second component is the context after the
    call. *)
Record AuthProvider : Type := {
  getPrincipal : value -> Result (value * value)
}.

Record Container : Type := {
  bound_Controllers : list Class;
  isBound : Middleware -> bool;
  container_get : Middleware -> Result Instance;
  getNamed_Controller : string -> Result value;
  bound_AuthProvider : option AuthProvider
}.

(** [container.getAll(TYPE.Controller)] throws when nothing is bound. *)
Definition getAll_Controller (c : Container) : Result (list Class) :=
  match bound_Controllers c with
  | [] => Throw (NotBound "No matching bindings found for serviceIdentifier: Symbol(Controller)")
  | l => Ok l
  end.

Definition container_get_AuthProvider (c : Container) : Result AuthProvider :=
  match bound_AuthProvider c with
  | Some p => Ok p
  | None => Throw (NotBound "No matching bindings found for serviceIdentifier: AuthProvider")
  end.

(** The request handlers that end up in a chain: each constructor is
    one of the places of [server.ts] that produce a handler. *)
Inductive Handler : Type :=
| HItem (m : Middleware)      (* resolveMiddleware: the item itself *)
| HInstance (name : string)   (* resolveMiddleware: the resolved instance, a function *)
| HObject (name : string)     (* resolveMiddleware: the resolved instance, not a function *)
| HAdapter (name : string)    (* resolveMiddleware: (ctx, next) => instance.handler(ctx, next) *)
| HInvoke (controllerName key : string) (parameterMetadata : list ParameterMetadata)
                              (* handlerFactory *)
| HPrincipal                  (* build: the principal middleware *)
| HRoutes.                    (* router.routes() *)

(** [typeof h === "function"]. *)
Definition callable (h : Handler) : bool :=
  match h with
  | HItem (MwHandler _) => true
  | HItem (MwId _) => false
  | HObject _ => false
  | HInstance _ | HAdapter _ | HInvoke _ _ _ | HPrincipal | HRoutes => true
  end.

(** One call [router[verb](path, ...chain)]. *)
Record Route : Type := {
  verb : string;
  route_path : string;
  chain : list Handler
}.

(** The router: its prefix and the routes registered on it, as they
    were passed. *)
Record Router : Type := {
  router_prefix : option string;
  router_stack : list Route
}.

(** What [router[name]] is: a method that registers a route under its
    own name, or another function of the router, given by what a call
    [(path, ...handlers)] does to the router. *)
Inductive Member : Type :=
| MVerb
| MOther (f : string -> list Handler -> Router -> Result Router).

(** The routing library: the members of a router, by name ([None]:
    the router has no such member). *)
Class RouterLib : Type := {
  router_member : string -> option Member
}.

Context {L : RouterLib}.

(** The Koa application: its middleware, in order of [use]. *)
Definition Koa := list Handler.

(** A configuration function: whether the call returns or throws (the
    code ignores what it returns), and the application as the call leaves
    it. *)
Definition ConfigFunction := Koa -> Result unit * Koa.

Record RoutingConfig : Type := {
  rootPath : string
}.

Record InversifyKoaServer : Type := {
  _router : Router;
  _container : Container;
  _app : Koa;
  _configFn : option ConfigFunction;
  _errorConfigFn : option ConfigFunction;
  _routingConfig : RoutingConfig;
  _AuthProvider : option AuthProvider
}.

Definition new_Router : Router := {| router_prefix := None; router_stack := [] |}.
Definition new_Koa : Koa := [].

Definition bind_AuthProvider (c : Container) (p : AuthProvider) : Container :=
  {| bound_Controllers := bound_Controllers c;
     isBound := isBound c;
     container_get := container_get c;
     getNamed_Controller := getNamed_Controller c;
     bound_AuthProvider := Some p |}.

(** [new InversifyKoaServer(container, customRouter, routingConfig,
    customApp, authProvider)]; an omitted or [null] argument is [None]. *)
Definition new_InversifyKoaServer (container : Container) (customRouter : option Router)
    (routingConfig : option RoutingConfig) (customApp : option Koa)
    (authProvider : option AuthProvider) : InversifyKoaServer :=
  {| _router := match customRouter with Some r => r | None => new_Router end;
     _container := match authProvider with
                   | Some p => bind_AuthProvider container p
                   | None => container
                   end;
     _app := match customApp with Some a => a | None => new_Koa end;
     _configFn := None;
     _errorConfigFn := None;
     _routingConfig := match routingConfig with
                       | Some rc => rc
                       | None => {| rootPath := DEFAULT_ROUTING_ROOT_PATH |}
                       end;
     _AuthProvider := authProvider |}.

Definition setConfig (fn : ConfigFunction) (s : InversifyKoaServer) : InversifyKoaServer :=
  {| _router := _router s; _container := _container s; _app := _app s;
     _configFn := Some fn;
     _errorConfigFn := _errorConfigFn s;
     _routingConfig := _routingConfig s; _AuthProvider := _AuthProvider s |}.

Definition setErrorConfig (fn : ConfigFunction) (s : InversifyKoaServer) : InversifyKoaServer :=
  {| _router := _router s; _container := _container s; _app := _app s;
     _configFn := _configFn s;
     _errorConfigFn := Some fn;
     _routingConfig := _routingConfig s; _AuthProvider := _AuthProvider s |}.

(** ** server.ts: build

    [build] runs on the application and the router of the server and
    keeps a log of the calls it makes, in order.  A step that throws
    leaves the state as the steps before it made it. *)

Inductive Event : Type :=
| EvUse (h : Handler)        (* this._app.use(h) *)
| EvConfigFn                 (* this._configFn.apply(undefined, [this._app]) *)
| EvErrorConfigFn            (* this._errorConfigFn.apply(undefined, [this._app]) *)
| EvPrefix (p : string)      (* this._router.prefix(p) *)
| EvRegister (r : Route).    (* this._router[verb](path, ...chain) returned *)

Record World : Type := {
  app : Koa;
  router : Router;
  log : list Event
}.

Definition M (A : Type) : Type := World -> Result A * World.

Definition ret {A : Type} (a : A) : M A := fun w => (Ok a, w).

Definition bindM {A B : Type} (m : M A) (k : A -> M B) : M B :=
  fun w => match m w with
           | (Ok a, w') => k a w'
           | (Throw e, w') => (Throw e, w')
           end.

Definition lift {A : Type} (r : Result A) : M A := fun w => (r, w).

Declare Scope build_scope.
Delimit Scope build_scope with build.
Notation "x <~ m ;; k" := (bindM m (fun x => k))
  (at level 61, m at next level, right associativity) : build_scope.
Notation "m ;;; k" := (bindM m (fun _ => k))
  (at level 61, right associativity) : build_scope.
Open Scope build_scope.

Definition app_use (h : Handler) : M unit :=
  fun w => (Ok tt, {| app := app w ++ [h]; router := router w; log := log w ++ [EvUse h] |}).

(** The call of a configuration function: the call is logged, then the
    function runs on the application. *)
Definition apply_config (ev : Event) (fn : ConfigFunction) : M unit :=
  fun w => (fst (fn (app w)),
            {| app := snd (fn (app w)); router := router w; log := log w ++ [ev] |}).

Definition router_set_prefix (p : string) : M unit :=
  fun w => (Ok tt, {| app := app w;
                      router := {| router_prefix := Some p;
                                   router_stack := router_stack (router w) |};
                      log := log w ++ [EvPrefix p] |}).

(** [this._router[metadata.method](path, ...chain)]: a TypeError when
    the router has no such member; a route verb refuses a handler that is
    not a function and otherwise adds the route. *)
Definition router_call (r : Route) : M unit :=
  fun w =>
    match router_member (verb r) with
    | None => (Throw (TypeError "this._router[metadata.method] is not a function"), w)
    | Some MVerb =>
        if forallb callable (chain r)
        then (Ok tt, {| app := app w;
                        router := {| router_prefix := router_prefix (router w);
                                     router_stack := router_stack (router w) ++ [r] |};
                        log := log w ++ [EvRegister r] |})
        else (Throw (Failure "middleware must be a function"), w)
    | Some (MOther f) =>
        match f (route_path r) (chain r) (router w) with
        | Ok rt => (Ok tt, {| app := app w; router := rt; log := log w ++ [EvRegister r] |})
        | Throw e => (Throw e, w)
        end
    end.

Fixpoint forEach {A : Type} (f : A -> M unit) (l : list A) : M unit :=
  match l with
  | [] => ret tt
  | x :: t => f x ;;; forEach f t
  end.

(** The body of the [map] callback of [resolveMiddleware]. *)
Definition resolve_item (c : Container) (middlewareItem : Middleware) : Result Handler :=
  if isBound c middlewareItem then
    middlewareInstance <- container_get c middlewareItem ;;
    match middlewareInstance with
    | IBaseMiddleware n => Ok (HAdapter n)
    | IHandler n => Ok (HInstance n)
    | IObject n => Ok (HObject n)
    end
  else Ok (HItem middlewareItem).

Fixpoint resolveMiddleware (c : Container) (middleware : list Middleware)
    : Result (list Handler) :=
  match middleware with
  | [] => Ok []
  | m :: t =>
      h <- resolve_item c m ;;
      hs <- resolveMiddleware c t ;;
      Ok (h :: hs)
  end.

Definition handlerFactory (controllerName key : string)
    (parameterMetadata : list ParameterMetadata) : Handler :=
  HInvoke controllerName key parameterMetadata.

(** The callback of [methodMetadata.forEach].  The parameter list is
    the one stored under the method's name; a method named like a member
    that every object inherits ([toString], ...) is not covered. *)
Definition register_method (c : Container) (controllerMetadata : ControllerMetadata)
    (parameterMetadata : option ControllerParameterMetadata)
    (controllerMiddleware : list Handler) (metadata : ControllerMethodMetadata) : M unit :=
  let paramList :=
    match parameterMetadata with
    | Some o => match assoc (mm_key metadata) o with Some l => l | None => [] end
    | None => []
    end in
  let handler := handlerFactory (cm_target controllerMetadata) (mm_key metadata) paramList in
  routeMiddleware <~ lift (resolveMiddleware c (mm_middleware metadata)) ;;
  router_call {| verb := mm_method metadata;
                 route_path := (cm_path controllerMetadata ++ mm_path metadata)%string;
                 chain := controllerMiddleware ++ routeMiddleware ++ [handler] |}.

(** The callback of [controllers.forEach]. *)
Definition register_controller (c : Container) (ctl : Class) : M unit :=
  match meta_controller ctl, meta_controllerMethod ctl with
  | Some controllerMetadata, Some methodMetadata =>
      controllerMiddleware <~ lift (resolveMiddleware c (cm_middleware controllerMetadata)) ;;
      forEach (register_method c controllerMetadata (meta_controllerParameter ctl)
                 controllerMiddleware) methodMetadata
  | _, _ => ret tt
  end.

Definition registerControllers (s : InversifyKoaServer) : M unit :=
  (if rootPath (_routingConfig s) =? DEFAULT_ROUTING_ROOT_PATH
   then ret tt
   else router_set_prefix (rootPath (_routingConfig s))) ;;;
  controllers <~ lift (getAll_Controller (_container s)) ;;
  forEach (register_controller (_container s)) controllers ;;;
  app_use HRoutes.

Definition build_steps (s : InversifyKoaServer) : M Koa :=
  app_use HPrincipal ;;;
  match _configFn s with
  | Some fn => apply_config EvConfigFn fn
  | None => ret tt
  end ;;;
  registerControllers s ;;;
  match _errorConfigFn s with
  | Some fn => apply_config EvErrorConfigFn fn
  | None => ret tt
  end ;;;
  (fun w => (Ok (app w), w)).

(** A run of [server.build()]: what it returns or throws, and the state
    it leaves. *)
Definition build_run (s : InversifyKoaServer) : Result Koa * World :=
  build_steps s {| app := _app s; router := _router s; log := [] |}.

(** [server.build()]: the returned application and the final state. *)
Definition build (s : InversifyKoaServer) : Result (Koa * World) :=
  match build_run s with
  | (Ok a, w) => Ok (a, w)
  | (Throw e, _) => Throw e
  end.

(** ** server.ts: serving a request *)

Inductive ReqEvent : Type :=
| EvGetPrincipal (ctx : value)                           (* authProvider.getPrincipal(ctx) *)
| EvInvoke (controllerName key : string) (args : list value).
                                                 (* controller[key](...args) returned *)

Record Request : Type := {
  req_ctx : value;
  req_trace : list ReqEvent
}.

(** A continuation: the rest of the chain. *)
Definition Cont := Request -> Result Request.

(** What a function of the host application does when the invocation
    handler calls it as a controller method: it receives the arguments,
    the continuation and the request as it stands, and returns its
    (awaited) result and the request as it leaves it. *)
Variable host_method : string -> list value -> Cont -> Request -> Result (value * Request).

(** How the handlers of the host application behave, by name. *)
Variable host_middleware : string -> Cont -> Cont.

Definition default_principal : value :=
  plain_object [("details", VNull);
                ("isAuthenticated", VFn (FnResolve (VBool false)));
                ("isInRole", VFn (FnResolve (VBool false)));
                ("isResourceOwner", VFn (FnResolve (VBool false)))].

Definition _getCurrentPrincipal (s : InversifyKoaServer) (rq : Request)
    : Result (value * Request) :=
  match _AuthProvider s with
  | Some _ =>
      authProvider <- container_get_AuthProvider (_container s) ;;
      pc <- getPrincipal authProvider (req_ctx rq) ;;
      Ok (fst pc, {| req_ctx := snd pc;
                     req_trace := req_trace rq ++ [EvGetPrincipal (req_ctx rq)] |})
  | None => Ok (default_principal, rq)
  end.

(** The middleware that [build] installs first:
    [ctx.state.principal = await _self._getCurrentPrincipal(ctx); await next()].
    The state object is the one of the context, with whatever the
    provider did to it; a provider that puts another object in
    [ctx.state] is not covered. *)
Definition principal_middleware (s : InversifyKoaServer) (next : Cont) : Cont :=
  fun rq =>
    pr <- _getCurrentPrincipal s rq ;;
    let (p, rq1) := pr in
    st <- get_prop (req_ctx rq1) "state" ;;
    st' <- set_prop st "principal" p ;;
    ctx' <- set_prop (req_ctx rq1) "state" st' ;;
    next {| req_ctx := ctx'; req_trace := req_trace rq1 |}.

(** The continuation as the value handed to a controller method. *)
Definition next_fn : value := VFn (FnHost "next").

(** [controller[key](...args)], awaited. *)
Definition call_live (ctl : value) (key : string) (args : list value) (next : Cont)
    (rq : Request) : Result (value * Request) :=
  f <- get_prop ctl key ;;
  match f with
  | VFn (FnHost name) => host_method name args next rq
  | VFn g => v <- call_fn g args ;; Ok (v, rq)
  | _ => Throw (TypeError "is not a function")
  end.

(** What the handler does with the result of the method.  The awaited
    result is never a pending promise, so only the second branch of the
    [if] can run.  [ctx.body = result] is recorded as the assignment of
    the property; what the setter of Koa does besides, on the status and
    the headers of the response, is Koa's and is not modelled. *)
Definition respond (controllerName key : string) (args : list value)
    (pr : value * Request) : Result Request :=
  let (result, rq1) := pr in
  let ctx := req_ctx rq1 in
  let trace := req_trace rq1 ++ [EvInvoke controllerName key args] in
  if truthy result then
    sent <- get_prop ctx "headerSent" ;;
    if truthy sent then Ok {| req_ctx := ctx; req_trace := trace |}
    else
      ctx' <- set_prop ctx "body" result ;;
      Ok {| req_ctx := ctx'; req_trace := trace |}
  else Ok {| req_ctx := ctx; req_trace := trace |}.

(** The handler that [handlerFactory] returns. *)
Definition invocation_handler (s : InversifyKoaServer) (controllerName key : string)
    (parameterMetadata : list ParameterMetadata) (next : Cont) : Cont :=
  fun rq =>
    args <- extractParameters (req_ctx rq) next_fn parameterMetadata ;;
    ctl <- getNamed_Controller (_container s) controllerName ;;
    pr <- call_live ctl key (spread args) next rq ;;
    respond controllerName key (spread args) pr.

(** Calling a handler; [routes] is what the router's own middleware
    does with the request. *)
Definition run_handler (s : InversifyKoaServer) (routes : Cont -> Cont)
    (h : Handler) (next : Cont) : Cont :=
  match h with
  | HPrincipal => principal_middleware s next
  | HInvoke controllerName key parameterMetadata =>
      invocation_handler s controllerName key parameterMetadata next
  | HAdapter n => host_middleware (n ++ ".handler")%string next
  | HInstance n => host_middleware n next
  | HItem (MwHandler n) => host_middleware n next
  | HItem (MwId _) | HObject _ => fun _ => Throw (TypeError "middleware is not a function")
  | HRoutes => routes next
  end.

(** Koa's composition of a chain: each handler receives the rest as its
    continuation. *)
Fixpoint run_chain (s : InversifyKoaServer) (routes : Cont -> Cont)
    (hs : list Handler) (done : Cont) : Cont :=
  match hs with
  | [] => done
  | h :: t => run_handler s routes h (run_chain s routes t done)
  end.

End Dispatcher.

(** ** What the route compiler is expected to produce

    The handler for one middleware item, the route for one method
    entry, the routes of one controller and the outcomes of a build,
    written down independently to compare [resolveMiddleware],
    [registerControllers] and [build] with. *)

Section Expected.

Context {E : Engine} {L : RouterLib}.

(** The handler expected for an item on which the container does not
    fail. *)
Definition spec_resolve (c : Container) (m : Middleware) : Handler :=
  if isBound c m then
    match container_get c m with
    | Ok (IBaseMiddleware n) => HAdapter n
    | Ok (IHandler n) => HInstance n
    | Ok (IObject n) => HObject n
    | Throw _ => HItem m
    end
  else HItem m.

(** The container does not fail on the item: it is not bound, or [get]
    returns an instance. *)
Definition gets (c : Container) (m : Middleware) : bool :=
  negb (isBound c m) || match container_get c m with Ok _ => true | Throw _ => false end.

Definition resolvable (c : Container) (ms : list Middleware) : bool :=
  forallb (gets c) ms.

Definition spec_paramList (ctl : Class) (key : string) : list ParameterMetadata :=
  match meta_controllerParameter ctl with
  | Some o => match assoc key o with Some l => l | None => [] end
  | None => []
  end.

Definition spec_route (c : Container) (ctl : Class) (cm : ControllerMetadata)
    (m : ControllerMethodMetadata) : Route :=
  {| verb := mm_method m;
     route_path := (cm_path cm ++ mm_path m)%string;
     chain := map (spec_resolve c) (cm_middleware cm)
              ++ map (spec_resolve c) (mm_middleware m)
              ++ [HInvoke (cm_target cm) (mm_key m) (spec_paramList ctl (mm_key m))] |}.

Definition spec_routes (c : Container) (ctl : Class) : list Route :=
  match meta_controller ctl, meta_controllerMethod ctl with
  | Some cm, Some mms => map (spec_route c ctl cm) mms
  | _, _ => []
  end.

Definition spec_all_routes (s : InversifyKoaServer) : list (list Route) :=
  map (spec_routes (_container s)) (bound_Controllers (_container s)).

(** The value an item binds when its extraction succeeds. *)
Definition arg_value (host_call : string -> list value -> Result value)
    (ctx next : value) (item : ParameterMetadata) : value :=
  match extract_arg host_call ctx next item with
  | Ok v => v
  | Throw _ => VUndefined
  end.

(** One turn of the loop of [extractParameters] on such an item. *)
Definition store_arg (host_call : string -> list value -> Result value)
    (ctx next : value) (a : array) (item : ParameterMetadata) : array :=
  array_set (index item) (arg_value host_call ctx next item) a.

(** The object whose property a binding of the given type looks up:
    [source[paramType] || source]. *)
Definition source_collection (ctx : value) (ty : PARAMETER_TYPE) : Result value :=
  match ty with
  | REQUEST => r <- get_prop ctx "request" ;; p <- get_prop r "null" ;; Ok (js_or p r)
  | RESPONSE => r <- get_prop ctx "response" ;; p <- get_prop r "null" ;; Ok (js_or p r)
  | CTX => p <- get_prop ctx "null" ;; Ok (js_or p ctx)
  | PARAMS => p <- get_prop ctx "params" ;; Ok (js_or p ctx)
  | QUERY => p <- get_prop ctx "query" ;; Ok (js_or p ctx)
  | BODY => r <- get_prop ctx "request" ;; p <- get_prop r "body" ;; Ok (js_or p r)
  | HEADERS => r <- get_prop ctx "request" ;; p <- get_prop r "headers" ;; Ok (js_or p r)
  | COOKIES => p <- get_prop ctx "cookies" ;; Ok (js_or p ctx)
  | NEXT | UNLISTED => Ok ctx
  end.

(** The bindings whose missed lookup falls back to the collection. *)
Definition falls_back_to_collection (ty : PARAMETER_TYPE) : bool :=
  match ty with
  | PARAMS | BODY | HEADERS | REQUEST | RESPONSE | CTX => true
  | _ => false
  end.

Definition is_register (e : Event) : bool :=
  match e with EvRegister _ => true | _ => false end.

Definition is_configFn (e : Event) : bool :=
  match e with EvConfigFn => true | _ => false end.

Definition is_errorConfigFn (e : Event) : bool :=
  match e with EvErrorConfigFn => true | _ => false end.

Definition is_mount (e : Event) : bool :=
  match e with EvUse HRoutes => true | _ => false end.

Definition is_prefix (e : Event) : bool :=
  match e with EvPrefix _ => true | _ => false end.

(** [a] occurs in the log strictly before [b]. *)
Definition before (a b : Event) (l : list Event) : Prop :=
  exists l1 l2 l3, l = l1 ++ a :: l2 ++ b :: l3.

(** The verb of the route is a route method of the router. *)
Definition route_verb (r : Route) : bool :=
  match router_member (verb r) with
  | Some MVerb => true
  | _ => false
  end.

(** The router takes the route: its verb is a route method and every
    handler of its chain is a function. *)
Definition accepted (r : Route) : bool :=
  route_verb r && forallb callable (chain r).

(** The router after a call that returned, and after a list of them. *)
Definition router_step (rt : Router) (r : Route) : Router :=
  match router_member (verb r) with
  | Some MVerb => {| router_prefix := router_prefix rt;
                     router_stack := router_stack rt ++ [r] |}
  | Some (MOther f) => match f (route_path r) (chain r) rt with
                       | Ok rt' => rt'
                       | Throw _ => rt
                       end
  | None => rt
  end.

Definition router_after (calls : list Route) (rt : Router) : Router :=
  fold_left router_step calls rt.

(** The state after the calls [calls] on the router returned. *)
Definition add_calls (calls : list Route) (w : World) : World :=
  {| app := app w;
     router := router_after calls (router w);
     log := log w ++ map EvRegister calls |}.

(** Nothing stops the registration of the controller: the container
    resolves its middleware and the router takes each of its routes. *)
Definition controller_ready (c : Container) (ctl : Class) : bool :=
  match meta_controller ctl, meta_controllerMethod ctl with
  | Some cm, Some mms =>
      resolvable c (cm_middleware cm)
      && forallb (fun m => resolvable c (mm_middleware m) && accepted (spec_route c ctl cm m))
                 mms
  | _, _ => true
  end.

Definition opt_event (fn : option ConfigFunction) (e : Event) : list Event :=
  match fn with
  | Some _ => [e]
  | None => []
  end.

(** The application after the call of a configuration function, and
    whether the call returned. *)
Definition opt_apply (fn : option ConfigFunction) (a : Koa) : Koa :=
  match fn with
  | Some f => snd (f a)
  | None => a
  end.

Definition config_ok (fn : option ConfigFunction) (a : Koa) : bool :=
  match fn with
  | Some f => match fst (f a) with Ok _ => true | Throw _ => false end
  | None => true
  end.

Definition custom_root (s : InversifyKoaServer) : bool :=
  negb (rootPath (_routingConfig s) =? DEFAULT_ROUTING_ROOT_PATH).

(** The application when the registration starts and when it is over. *)
Definition configured_app (s : InversifyKoaServer) : Koa :=
  opt_apply (_configFn s) (_app s ++ [HPrincipal]).

Definition mounted_app (s : InversifyKoaServer) : Koa :=
  configured_app s ++ [HRoutes].

(** Nothing stops the build: the configuration functions return, some
    controller is bound, and every bound controller is ready. *)
Definition build_ready (s : InversifyKoaServer) : bool :=
  config_ok (_configFn s) (_app s ++ [HPrincipal])
  && match bound_Controllers (_container s) with [] => false | _ => true end
  && forallb (controller_ready (_container s)) (bound_Controllers (_container s))
  && config_ok (_errorConfigFn s) (mounted_app s).

(** The router when the registration starts. *)
Definition prefixed (s : InversifyKoaServer) : Router :=
  if custom_root s
  then {| router_prefix := Some (rootPath (_routingConfig s));
          router_stack := router_stack (_router s) |}
  else _router s.

(** The log up to the first registration. *)
Definition head_log (s : InversifyKoaServer) : list Event :=
  [EvUse HPrincipal]
  ++ opt_event (_configFn s) EvConfigFn
  ++ (if custom_root s then [EvPrefix (rootPath (_routingConfig s))] else []).

(** The application after the error configuration function, which is
    what a build returns, and the log of a build that returns. *)
Definition final_app (s : InversifyKoaServer) : Koa :=
  opt_apply (_errorConfigFn s) (mounted_app s).

Definition final_log (s : InversifyKoaServer) : list Event :=
  head_log s ++ map EvRegister (concat (spec_all_routes s))
  ++ [EvUse HRoutes] ++ opt_event (_errorConfigFn s) EvErrorConfigFn.

(** The route was compiled from a method entry of the controller, and
    the container resolved the middleware of both. *)
Definition compiled (c : Container) (ctl : Class) (r : Route) : Prop :=
  exists cm mms m,
    meta_controller ctl = Some cm
    /\ meta_controllerMethod ctl = Some mms
    /\ In m mms
    /\ resolvable c (cm_middleware cm) = true
    /\ resolvable c (mm_middleware m) = true
    /\ r = spec_route c ctl cm m.

Definition all_compiled (s : InversifyKoaServer) (calls : list Route) : Prop :=
  forall r, In r calls ->
    exists ctl, In ctl (bound_Controllers (_container s)) /\ compiled (_container s) ctl r.

(** The four ways a build can end: the configuration function throws;
    the registration throws, after some of the expected calls; the error
    configuration function throws; the build returns. *)
Inductive build_outcome (s : InversifyKoaServer) : Result Koa -> World -> Prop :=
| config_threw (fn : ConfigFunction) (e : Error) :
    _configFn s = Some fn ->
    fst (fn (_app s ++ [HPrincipal])) = Throw e ->
    build_outcome s (Throw e)
      {| app := configured_app s;
         router := _router s;
         log := [EvUse HPrincipal; EvConfigFn] |}
| registration_threw (e : Error) (done rest : list Route) :
    config_ok (_configFn s) (_app s ++ [HPrincipal]) = true ->
    concat (spec_all_routes s) = done ++ rest ->
    all_compiled s done ->
    build_outcome s (Throw e)
      {| app := configured_app s;
         router := router_after done (prefixed s);
         log := head_log s ++ map EvRegister done |}
| errorConfig_threw (fn : ConfigFunction) (e : Error) :
    config_ok (_configFn s) (_app s ++ [HPrincipal]) = true ->
    bound_Controllers (_container s) <> [] ->
    all_compiled s (concat (spec_all_routes s)) ->
    _errorConfigFn s = Some fn ->
    fst (fn (mounted_app s)) = Throw e ->
    build_outcome s (Throw e)
      {| app := final_app s;
         router := router_after (concat (spec_all_routes s)) (prefixed s);
         log := head_log s ++ map EvRegister (concat (spec_all_routes s))
                ++ [EvUse HRoutes; EvErrorConfigFn] |}
| build_returned :
    config_ok (_configFn s) (_app s ++ [HPrincipal]) = true ->
    bound_Controllers (_container s) <> [] ->
    all_compiled s (concat (spec_all_routes s)) ->
    config_ok (_errorConfigFn s) (mounted_app s) = true ->
    build_outcome s (Ok (final_app s))
      {| app := final_app s;
         router := router_after (concat (spec_all_routes s)) (prefixed s);
         log := final_log s |}.


(** [ctx.state.principal]. *)
Definition principal_of (rq : Request) : Result value :=
  st <- get_prop (req_ctx rq) "state" ;; get_prop st "principal".

(** No host function is called. *)
Definition no_host_call : string -> list value -> Result value :=
  fun name _ => Throw (TypeError name).

Definition no_host_method
    : string -> list value -> Cont -> Request -> Result (value * Request) :=
  fun name _ _ _ => Throw (TypeError name).

Definition no_host_middleware : string -> Cont -> Cont :=
  fun name _ _ => Throw (TypeError name).

(** A controller method that only computes its result from its
    arguments. *)
Definition pure_method (host_call : string -> list value -> Result value)
    : string -> list value -> Cont -> Request -> Result (value * Request) :=
  fun name args _ rq => v <- host_call name args ;; Ok (v, rq).

(** Serving a request that the router matched with [route]: the
    application's chain, in which the router's middleware runs the chain
    of the route. *)
Definition serve (host_call : string -> list value -> Result value)
    (s : InversifyKoaServer) (a : Koa) (route : Route) (rq : Request) : Result Request :=
  let no_routes : Cont -> Cont := fun k => k in
  let matched : Cont -> Cont :=
    fun k => run_chain host_call (pure_method host_call) no_host_middleware s no_routes
               (chain route) k in
  run_chain host_call (pure_method host_call) no_host_middleware s matched a
    (fun r => Ok r) rq.

(** The server after a call of [build]: the application and the router
    are the objects the build has changed. *)
Definition after_build (s : InversifyKoaServer) (w : World) : InversifyKoaServer :=
  {| _router := router w; _container := _container s; _app := app w;
     _configFn := _configFn s; _errorConfigFn := _errorConfigFn s;
     _routingConfig := _routingConfig s; _AuthProvider := _AuthProvider s |}.

(** [resolveMidleware] of the second copy of the server:
    [try { return container.get(item) } catch (_) { return item }].  The
    resolved instance is used as it is, whatever it is. *)
Definition resolveMidleware (c : Container) (middleware : list Middleware) : list Handler :=
  map (fun middlewareItem =>
         match container_get c middlewareItem with
         | Ok (IHandler n) => HInstance n
         | Ok (IBaseMiddleware n) => HObject n
         | Ok (IObject n) => HObject n
         | Throw _ => HItem middlewareItem
         end) middleware.

(** No item of the list is bound to a BaseMiddleware. *)
Definition no_base_middleware (c : Container) (middleware : list Middleware) : Prop :=
  forall m n, In m middleware -> container_get c m <> Ok (IBaseMiddleware n).

(** [get] throws for what is not bound. *)
Definition unbound_throws (c : Container) (middleware : list Middleware) : Prop :=
  forall m, In m middleware -> isBound c m = false -> exists e, container_get c m = Throw e.

End Expected.

(** ** Sequences of decorators *)

(** One [@httpMethod(method, path, ...middleware)] on the method [key]. *)
Record MethodDecl : Type := {
  d_method : string;
  d_path : string;
  d_middleware : list Middleware;
  d_key : string
}.

(** The method decorators of a class, applied one after the other. *)
Definition decorate_methods (ds : list MethodDecl) (target : Class) : Class :=
  fold_left (fun t d => httpMethod (d_method d) (d_path d) (d_middleware d) (d_key d) t)
            ds target.

(** The entry that [httpMethod] builds for a declaration. *)
Definition method_metadata (target_name : string) (d : MethodDecl) : ControllerMethodMetadata :=
  {| mm_path := d_path d; mm_middleware := d_middleware d; mm_method := d_method d;
     mm_target := target_name; mm_key := d_key d |}.




(** The rules stored under [METADATA_KEY.authorize]. *)
Definition authorize_rules (target : Class) : list (string * AuthorizeMetadata) :=
  getMetadataList (meta_authorize target).

(** The number of slots the loop of [extractParameters] fills or skips:
    one more than the largest index. *)
Definition declared_slots (params : list ParameterMetadata) : nat :=
  fold_right (fun it m => Nat.max (S (index it)) m) 0 params.

(** ** Sample data *)

(** An engine for the examples: a string has its length; no other
    member of a primitive value is modelled. *)
#[global] Instance sample_engine : Engine :=
  {| builtin_member := fun v k =>
       match v with
       | VStr s => if k =? "length" then VNum (Z.of_nat (String.length s)) else VUndefined
       | _ => VUndefined
       end |}.

(** The route methods of koa-router. *)
Definition route_verbs : list string :=
  ["get"; "post"; "put"; "patch"; "head"; "delete"; "del"; "options"; "all"].

(** A router for the examples: the route methods, and [toString], which
    every object inherits and which registers nothing; any other name is
    absent. *)
#[global] Instance sample_router_lib : RouterLib :=
  {| router_member := fun name =>
       if existsb (String.eqb name) route_verbs then Some MVerb
       else if name =? "toString" then Some (MOther (fun _ _ rt => Ok rt))
       else None |}.

(** The request and response objects of Node that a cookie accessor
    keeps. *)
Definition node_request : value := plain_object [("url", VStr "/")].
Definition node_response : value := plain_object [("statusCode", VNum 404)].

(** The cookie accessor of a context: its own properties, then [get]
    and [set], which it inherits; [get(name)] reads the jar. *)
Definition cookie_accessor (jar : list (string * string)) : value :=
  VObj ([("secure", VBool false);
         ("request", node_request);
         ("response", node_response);
         ("keys", VUndefined);
         ("get", VFn (FnCookieGet jar));
         ("set", VFn (FnHost "Cookies.set"));
         ("constructor", VFn (FnHost "Cookies"))]
        ++ Object_members ++ [("__proto__", VObj [])]).

(** A Koa context for a request with the given route parameters, query,
    parsed body, headers and cookies, reduced to the members the server
    reads.  The query collection is the object that the parser of query
    strings returns, which inherits nothing. *)
Definition koa_props (params query : object) (body : value) (headers : object)
    (jar : list (string * string)) : object :=
  [("request", plain_object [("body", body); ("headers", plain_object headers);
                             ("query", VObj query)]);
   ("response", plain_object []);
   ("params", plain_object params);
   ("query", VObj query);
   ("cookies", cookie_accessor jar);
   ("state", plain_object []);
   ("headerSent", VBool false)]
  ++ Object_members ++ [("__proto__", VObj [])].

Definition koa_ctx (params query : object) (body : value) (headers : object)
    (jar : list (string * string)) : value :=
  VObj (koa_props params query body headers jar).

(** GET /42?count=5 on a route with parameter ":id". *)
Definition ctx_42 : value :=
  koa_ctx [("id", VStr "42")] [("count", VStr "5")] VUndefined [] [].


(** A request that carries the cookie "cookie=hey". *)
Definition ctx_cookie : value :=
  koa_ctx [] [] VUndefined [] [("cookie", "hey")].

(** A request that carries a cookie named "get". *)
Definition ctx_cookie_get : value :=
  koa_ctx [] [] VUndefined [] [("get", "hey")].

(** GET /?id=foo. *)
Definition ctx_query : value :=
  koa_ctx [] [("id", VStr "foo")] VUndefined [] [].

(** Middleware items: an inline handler; identifiers bound to a
    handler function, to a BaseMiddleware and to an object that is no
    function; an identifier that is not bound; an identifier that is
    bound twice, on which [get] throws. *)
Definition mw_A : Middleware := MwHandler "A".
Definition mw_B : Middleware := MwId (SidString "B").
Definition mw_C : Middleware := MwId (SidSymbol "C").
Definition mw_D : Middleware := MwId (SidSymbol "D").
Definition mw_O : Middleware := MwId (SidString "O").
Definition mw_U : Middleware := MwId (SidSymbol "U").
Definition mw_X : Middleware := MwId (SidSymbol "X").

Definition sample_isBound (m : Middleware) : bool :=
  match m with
  | MwId (SidString "B") | MwId (SidSymbol "C") | MwId (SidSymbol "D")
  | MwId (SidString "O") | MwId (SidSymbol "X") => true
  | _ => false
  end.

Definition sample_get (m : Middleware) : Result Instance :=
  match m with
  | MwId (SidString "B") => Ok (IHandler "spyB")
  | MwId (SidSymbol "C") => Ok (IHandler "spyC")
  | MwId (SidSymbol "D") => Ok (IBaseMiddleware "TestMiddleware")
  | MwId (SidString "O") => Ok (IObject "settings")
  | MwId (SidSymbol "X") => Throw (Failure "Ambiguous match found for serviceIdentifier: X")
  | _ => Throw (NotBound "No matching bindings found for serviceIdentifier")
  end.

(** [@controller("/api", A, B, C) class ChainController
      { @httpGet("/items", D) list() } ]. *)
Definition ChainController : Class :=
  controller "/api" [mw_A; mw_B; mw_C]
    (httpGet "/items" [mw_D] "list" (new_class "ChainController")).

(** A class with method routes but no [@controller], and a class with
    [@controller] but no method. *)
Definition NoController : Class := httpGet "/x" [] "x" (new_class "NoController").
Definition NoMethods : Class := controller "/y" [] (new_class "NoMethods").



Definition UnboundController : Class :=
  controller "/" [mw_U] (httpGet "/" [] "test" (new_class "UnboundController")).

Definition container_of (ctls : list Class) : Container :=
  {| bound_Controllers := ctls;
     isBound := sample_isBound;
     container_get := sample_get;
     getNamed_Controller := fun _ => Throw (NotBound "controller");
     bound_AuthProvider := None |}.

Definition chain_container : Container :=
  container_of [ChainController; NoController; NoMethods].

Definition cfg_logger : ConfigFunction :=
  fun a => (Ok tt, a ++ [HItem (MwHandler "logger")]).
Definition cfg_errors : ConfigFunction :=
  fun a => (Ok tt, a ++ [HItem (MwHandler "errors")]).

(** A configuration function that installs a handler and then throws. *)
Definition cfg_throwing : ConfigFunction :=
  fun a => (Throw (Failure "no database"), a ++ [HItem (MwHandler "logger")]).

Definition configure (c : Container) : InversifyKoaServer :=
  setErrorConfig cfg_errors (setConfig cfg_logger (new_InversifyKoaServer c None None None None)).

Definition chain_server : InversifyKoaServer := configure chain_container.

Definition throwing_server : InversifyKoaServer :=
  setErrorConfig cfg_errors
    (setConfig cfg_throwing (new_InversifyKoaServer chain_container None None None None)).

(** The same configuration with no controller bound, and with the
    controllers above. *)
Definition empty_server : InversifyKoaServer := configure (container_of []).

(** The protected controller of the repository's authorization test:
    [@controller("/") @authorizeAll() class TestController
      { @httpGet(":id") getTest(@requestParam("id") id, ctx) { return id; } }]. *)
Definition TestController : Class :=
  controller "/" []
    (authorizeAll []
       (httpGet ":id" [] "getTest"
          (requestParam (Some "id") "getTest" 0 (new_class "TestController")))).

(** The same controller with the rule on the method: [@authorize("role a")]. *)
Definition TestControllerMethodRule : Class :=
  controller "/" []
    (applied
       (authorize ["role a"] "getTest"
          (httpGet ":id" [] "getTest"
             (requestParam (Some "id") "getTest" 0 (new_class "TestController"))))).

Definition test_host_call (name : string) (args : list value) : Result value :=
  if name =? "TestController.getTest"
  then Ok (match args with id :: _ => id | [] => VUndefined end)
  else Throw (TypeError name).

Definition test_container (ctl : Class) : Container :=
  {| bound_Controllers := [ctl];
     isBound := fun _ => false;
     container_get := fun _ => Throw (NotBound "No matching bindings found");
     getNamed_Controller := fun name =>
       if name =? "TestController"
       then Ok (plain_object [("getTest", VFn (FnHost "TestController.getTest"))])
       else Throw (NotBound name);
     bound_AuthProvider := None |}.

(** [new InversifyKoaServer(container)]: no auth provider. *)
Definition test_server (ctl : Class) : InversifyKoaServer :=
  new_InversifyKoaServer (test_container ctl) None None None None.


(** A provider whose principal is authenticated but in no role. *)
Definition principal_no_role : value :=
  plain_object [("details", VNull);
                ("isAuthenticated", VFn (FnResolve (VBool true)));
                ("isInRole", VFn (FnResolve (VBool false)));
                ("isResourceOwner", VFn (FnResolve (VBool false)))].

Definition provider_no_role : AuthProvider :=
  {| getPrincipal := fun ctx => Ok (principal_no_role, ctx) |}.


Definition test_server_with_provider (ctl : Class) : InversifyKoaServer :=
  new_InversifyKoaServer (test_container ctl) None None None (Some provider_no_role).


(** GET /foo, matched by the route "/:id". *)
Definition ctx_foo : value := koa_ctx [("id", VStr "foo")] [] VUndefined [] [].

Definition fresh_request (ctx : value) : Request := {| req_ctx := ctx; req_trace := [] |}.

(** The route of [getTest]: GET /:id. *)
Definition getTest_route : Route :=
  {| verb := "get"; route_path := "/:id";
     chain := [HInvoke "TestController" "getTest"
                 [ {| parameterName := "id"; index := 0; type := PARAMS |} ]] |}.

(** A request to a route with parameters (id, after): only the third
    parameter of the method is bound. *)
Definition params_third_only : list ParameterMetadata :=
  [ {| parameterName := "id"; index := 2; type := PARAMS |} ].

(** Two bindings for the same parameter. *)
Definition params_same_index : list ParameterMetadata :=
  [ {| parameterName := "id"; index := 0; type := PARAMS |};
    {| parameterName := "count"; index := 0; type := QUERY |} ].

(** A context without a [state] object. *)
Definition ctx_no_state : value := VObj [("params", VObj [])].


(** A POST whose body was not parsed, and one whose parsed body is the
    empty object. *)
Definition ctx_unparsed : value :=
  VObj [("request", plain_object [("url", VStr "/")]); ("response", plain_object [])].

Definition ctx_empty_body : value :=
  VObj [("request", plain_object [("body", plain_object [])]);
        ("response", plain_object [])].

(** The sample server under the root path "/api/v1". *)
Definition api_server : InversifyKoaServer :=
  new_InversifyKoaServer chain_container None (Some {| rootPath := "/api/v1" |}) None None.



Definition param_id : list ParameterMetadata :=
  [ {| parameterName := "id"; index := 0; type := PARAMS |} ].

(** * Properties *)

(** ** Arrays and property lists *)

Lemma assoc_obj_set_same (A : Type) (k : string) (v : A) (l : list (string * A)) :
  assoc k (obj_set k v l) = Some v.
Proof.
  induction l as [|[k' v'] t IH]; simpl.
  - now rewrite String.eqb_refl.
  - destruct (k =? k')%string eqn:E; simpl.
    + now rewrite String.eqb_refl.
    + now rewrite E.
Qed.

Lemma assoc_obj_set_other (A : Type) (k k' : string) (v : A) (l : list (string * A)) :
  k' <> k -> assoc k' (obj_set k v l) = assoc k' l.
Proof.
  intro Hne. induction l as [|[k0 v0] t IH]; simpl.
  - apply String.eqb_neq in Hne. now rewrite Hne.
  - destruct (k =? k0)%string eqn:E; simpl.
    + apply String.eqb_eq in E; subst k0.
      apply String.eqb_neq in Hne. now rewrite Hne.
    + destruct (k' =? k0)%string; auto.
Qed.

Lemma length_obj_set (A : Type) (k : string) (v : A) (l : list (string * A)) :
  length (obj_set k v l)
  = match assoc k l with Some _ => length l | None => S (length l) end.
Proof.
  induction l as [|[k0 v0] t IH]; simpl; auto.
  destruct (k =? k0)%string; simpl; auto.
  rewrite IH. now destruct (assoc k t).
Qed.

Lemma nth_error_array_set_same (i : nat) (v : value) (a : array) :
  nth_error (array_set i v a) i = Some (Some v).
Proof.
  revert a; induction i as [|i IH]; intros [|x t]; simpl; auto.
Qed.

Lemma nth_error_array_set_other (i j : nat) (v : value) (a : array) (x : option value) :
  i <> j -> nth_error a j = Some x -> nth_error (array_set i v a) j = Some x.
Proof.
  revert j a; induction i as [|i IH]; intros [|j] [|y t] Hne Hj; simpl in *;
    try discriminate; try congruence.
  apply IH; auto.
Qed.


Lemma length_array_set (i : nat) (v : value) (a : array) :
  length (array_set i v a) = Nat.max (S i) (length a).
Proof.
  revert a; induction i as [|i IH]; intros [|x t]; simpl; auto;
    rewrite IH; simpl; lia.
Qed.

Lemma nth_error_array_set_gap (i j : nat) (v : value) (a : array) :
  j <> i -> length a <= j -> j < i -> nth_error (array_set i v a) j = Some None.
Proof.
  revert j a; induction i as [|i IH]; intros [|j] [|x t] Hne Hle Hlt; simpl in *;
    try lia; auto; apply IH; simpl; lia.
Qed.


Section ExtractionFacts.

Context {E : Engine}.
Variable host_call : string -> list value -> Result value.
Variables ctx nx : value.

Lemma extract_loop_fold (params : list ParameterMetadata) :
  (forall it, In it params -> exists v, extract_arg host_call ctx nx it = Ok v) ->
  forall args, extract_loop host_call ctx nx params args = Ok (fold_left (store_arg host_call ctx nx) params args).
Proof.
  induction params as [|item rest IH]; intros Hok args; simpl; auto.
  destruct (Hok item (or_introl eq_refl)) as [v Hv].
  rewrite Hv; simpl. rewrite IH by (intros; apply Hok; now right).
  replace (store_arg host_call ctx nx args item) with (array_set (index item) v args); [reflexivity|].
  unfold store_arg, arg_value. now rewrite Hv.
Qed.

Lemma fold_step_keeps (params : list ParameterMetadata) (j : nat) (x : option value) :
  ~ In j (map index params) ->
  forall args, nth_error args j = Some x -> nth_error (fold_left (store_arg host_call ctx nx) params args) j = Some x.
Proof.
  induction params as [|item rest IH]; intros Hnot args Hj; simpl in *; auto.
  apply IH; [tauto|]. unfold store_arg. apply nth_error_array_set_other; auto.
Qed.



Lemma length_fold_store (params : list ParameterMetadata) :
  forall args, length (fold_left (store_arg host_call ctx nx) params args)
               = Nat.max (declared_slots params) (length args).
Proof.
  induction params as [|it rest IH]; intro args; [reflexivity|].
  change (declared_slots (it :: rest))
    with (Nat.max (S (index it)) (declared_slots rest)).
  simpl fold_left. rewrite IH. unfold store_arg. rewrite length_array_set. lia.
Qed.

Lemma fold_store_unbound (params : list ParameterMetadata) (j : nat) :
  ~ In j (map index params) ->
  forall args, j < length (fold_left (store_arg host_call ctx nx) params args) ->
    nth_error (fold_left (store_arg host_call ctx nx) params args) j
    = if (j <? length args)%nat then nth_error args j else Some None.
Proof.
  induction params as [|it rest IH]; intros Hnot args Hlt; simpl in *.
  - apply Nat.ltb_lt in Hlt. now rewrite Hlt.
  - assert (Hne : index it <> j) by tauto.
    rewrite IH by tauto. unfold store_arg. rewrite length_array_set.
    destruct (j <? length args)%nat eqn:E1.
    + apply Nat.ltb_lt in E1.
      replace (j <? Nat.max (S (index it)) (length args))%nat with true
        by (symmetry; apply Nat.ltb_lt; lia).
      destruct (nth_error args j) as [x|] eqn:E2.
      * now apply nth_error_array_set_other.
      * apply nth_error_None in E2. lia.
    + apply Nat.ltb_ge in E1.
      destruct (j <? Nat.max (S (index it)) (length args))%nat eqn:E3; auto.
      apply Nat.ltb_lt in E3. apply nth_error_array_set_gap; lia.
Qed.

End ExtractionFacts.

(** ** Argument extraction *)

Lemma get_prop_ok {E : Engine} (v : value) (k : string) :
  nullish v = false -> exists x, get_prop v k = Ok x.
Proof. destruct v; simpl; intro H; try discriminate; eauto. Qed.

Lemma js_or_not_nullish (p r : value) : nullish r = false -> nullish (js_or p r) = false.
Proof.
  intro H. unfold js_or. destruct (truthy p) eqn:Tp; auto.
  destruct p; simpl in *; auto; discriminate.
Qed.

(** Away from cookies, [getParam] throws only on a nullish source. *)
Lemma getParam_ok {E : Engine} (host_call : string -> list value -> Result value)
    (source : value) (paramType : option string) (name : string) :
  nullish source = false ->
  is_type paramType "cookies" = false ->
  exists v, getParam host_call source paramType name = Ok v.
Proof.
  intros Hs Hc. unfold getParam.
  destruct (get_prop_ok source (key_of paramType) Hs) as [p ->]; simpl.
  destruct (get_prop_ok (js_or p source) name (js_or_not_nullish p source Hs)) as [v ->]; simpl.
  destruct (truthy v); eauto.
  unfold checkQueryParam. rewrite Hc. destruct (is_type paramType "query"); eauto.
Qed.

(** A COOKIES binding on a cookie accessor extracts a value. *)
Lemma getParam_cookies_ok {E : Engine} (host_call : string -> list value -> Result value)
    (ctx : value) (jar : list (string * string)) (name : string) :
  get_prop ctx "cookies" = Ok (cookie_accessor jar) ->
  exists v, getParam host_call ctx (Some "cookies") name = Ok v.
Proof.
  intro Hc. unfold getParam. cbn [key_of]. rewrite Hc. cbn [bind].
  change (js_or (cookie_accessor jar) ctx) with (cookie_accessor jar).
  destruct (get_prop_ok (cookie_accessor jar) name eq_refl) as [v ->]. cbn [bind].
  destruct (truthy v); eauto.
  unfold checkQueryParam, call_method. simpl. eauto.
Qed.





(** C7.  [@queryParam()] without a name records the name "default".
    On a request GET /?id=foo, a QUERY binding named "default" yields
    [undefined] in [server.ts], not the query collection; the [getParam]
    of the other copy of the server yields the collection. *)
Theorem queryParam_default_is_undefined {E : Engine} :
  spec_paramList (queryParam None "getTest" 0 (new_class "TestController")) "getTest"
  = [ {| parameterName := "default"; index := 0; type := QUERY |} ]
  /\ extract_arg no_host_call ctx_query next_fn
       {| parameterName := "default"; index := 0; type := QUERY |} = Ok VUndefined
  /\ get_prop ctx_query "query" = Ok (VObj [("id", VStr "foo")])
  /\ getParam_guarded no_host_call ctx_query (Some "query") "default"
     = Ok (VObj [("id", VStr "foo")]).
Proof. repeat split. Qed.

(** A QUERY binding named "default" reads the property "default" of
    the query collection like any other name. *)
Lemma queryParam_default_general {E : Engine}
    (host_call : string -> list value -> Result value) (ctx nx q : value) (i : nat) :
  get_prop ctx "query" = Ok q ->
  truthy q = true ->
  extract_arg host_call ctx nx {| parameterName := "default"; index := i; type := QUERY |}
  = (v <- get_prop q "default" ;; Ok (if truthy v then v else VUndefined)).
Proof.
  intros Hq Ht. unfold extract_arg, getParam; simpl. rewrite Hq; simpl.
  unfold js_or. rewrite Ht. destruct (get_prop q "default") as [v|e]; simpl; auto.
  now destruct (truthy v).
Qed.

(** C8, as stated, fails for a cookie whose name is a member of the
    accessor: with the cookie "get=hey" set, the accessor's [get("get")]
    returns "hey", but the binding [@cookies("get")] yields the accessor's
    own [get] function, found by plain property access. *)
Lemma cookies_named_get_counterexample :
  call_method no_host_call (cookie_accessor [("get", "hey")]) "get" [VStr "get"]
  = Ok (VStr "hey")
  /\ extract_arg no_host_call ctx_cookie_get next_fn
       {| parameterName := "get"; index := 0; type := COOKIES |}
     = Ok (VFn (FnCookieGet [("get", "hey")]))
  /\ extract_arg no_host_call ctx_cookie_get next_fn
       {| parameterName := "get"; index := 0; type := COOKIES |}
     <> Ok (VStr "hey").
Proof. repeat split. discriminate. Qed.

(** C8, amended.  A COOKIES binding named [n] first reads the property
    [n] of the accessor [ctx.cookies], its own or inherited.  When that
    property is absent or falsy, the extraction is the accessor's
    [get(n)]: where [get] reads a cookie jar, the value of the cookie when
    it is set and [undefined], without throwing, when it is not.  When the
    property is truthy, it is what the binding yields, and the cookies are
    not read. *)
Theorem cookies_read_through_get {E : Engine}
    (host_call : string -> list value -> Result value) (ctx nx : value)
    (n : string) (i : nat) :
  let item := {| parameterName := n; index := i; type := COOKIES |} in
  (forall acc v,
      get_prop ctx "cookies" = Ok acc -> truthy acc = true ->
      get_prop acc n = Ok v -> truthy v = false ->
      extract_arg host_call ctx nx item = call_method host_call acc "get" [VStr n])
  /\ (forall acc v jar,
        get_prop ctx "cookies" = Ok acc -> truthy acc = true ->
        get_prop acc n = Ok v -> truthy v = false ->
        get_prop acc "get" = Ok (VFn (FnCookieGet jar)) ->
        extract_arg host_call ctx nx item
        = Ok (match assoc n jar with Some s => VStr s | None => VUndefined end))
  /\ (forall acc v,
        get_prop ctx "cookies" = Ok acc -> truthy acc = true ->
        get_prop acc n = Ok v -> truthy v = true ->
        extract_arg host_call ctx nx item = Ok v).
Proof.
  simpl. assert (G : forall acc v,
      get_prop ctx "cookies" = Ok acc -> truthy acc = true ->
      get_prop acc n = Ok v -> truthy v = false ->
      extract_arg host_call ctx nx {| parameterName := n; index := i; type := COOKIES |}
      = call_method host_call acc "get" [VStr n]).
  { intros acc v Hc Ht Hv Hf. unfold extract_arg, getParam; simpl.
    rewrite Hc; simpl. unfold js_or. rewrite Ht, Hv; simpl. now rewrite Hf. }
  split; [exact G|]. split.
  - intros acc v jar Hc Ht Hv Hf Hg.
    rewrite (G acc v Hc Ht Hv Hf). unfold call_method. rewrite Hg. reflexivity.
  - intros acc v Hc Ht Hv Hf. unfold extract_arg, getParam; simpl.
    rewrite Hc; simpl. unfold js_or. rewrite Ht, Hv; simpl. now rewrite Hf.
Qed.

(** The cookie "cookie=hey" bound by [@cookies("cookie")] is "hey"; a
    cookie that is not set is [undefined]; [@cookies("request")] binds the
    request object that the accessor keeps. *)
Lemma cookies_read_through_get_witness :
  extract_arg no_host_call ctx_cookie next_fn
    {| parameterName := "cookie"; index := 0; type := COOKIES |} = Ok (VStr "hey")
  /\ extract_arg no_host_call ctx_cookie next_fn
       {| parameterName := "other"; index := 0; type := COOKIES |} = Ok VUndefined
  /\ extract_arg no_host_call ctx_cookie next_fn
       {| parameterName := "cookie"; index := 0; type := COOKIES |}
     = call_method no_host_call (cookie_accessor [("cookie", "hey")]) "get" [VStr "cookie"]
  /\ extract_arg no_host_call ctx_cookie next_fn
       {| parameterName := "request"; index := 0; type := COOKIES |} = Ok node_request.
Proof.
  split; [|split; [|split]].
  - apply (proj1 (proj2 (cookies_read_through_get no_host_call ctx_cookie next_fn "cookie" 0))
             (cookie_accessor [("cookie", "hey")]) VUndefined [("cookie", "hey")]);
      reflexivity.
  - apply (proj1 (proj2 (cookies_read_through_get no_host_call ctx_cookie next_fn "other" 0))
             (cookie_accessor [("cookie", "hey")]) VUndefined [("cookie", "hey")]);
      reflexivity.
  - apply (proj1 (cookies_read_through_get no_host_call ctx_cookie next_fn "cookie" 0)
             (cookie_accessor [("cookie", "hey")]) VUndefined); reflexivity.
  - apply (proj2 (proj2 (cookies_read_through_get no_host_call ctx_cookie next_fn "request" 0))
             (cookie_accessor [("cookie", "hey")]) node_request); reflexivity.
Defined.

(** C10.  When the lookup of the parameter name on the collection of
    a binding is absent or falsy: a PARAMS, BODY, HEADERS, REQUEST,
    RESPONSE or CTX binding yields the collection itself, which is never
    [undefined]; a QUERY binding yields [undefined]; a COOKIES binding
    calls the collection's [get(name)].  The lookup is the property read
    of the engine: it finds inherited members and the members of a string
    as well as own properties. *)
Theorem missed_lookup_fallback {E : Engine}
    (host_call : string -> list value -> Result value) (ctx nx : value)
    (item : ParameterMetadata) (coll v : value) :
  source_collection ctx (type item) = Ok coll ->
  get_prop coll (parameterName item) = Ok v ->
  truthy v = false ->
  (falls_back_to_collection (type item) = true ->
     extract_arg host_call ctx nx item = Ok coll /\ coll <> VUndefined)
  /\ (type item = QUERY -> extract_arg host_call ctx nx item = Ok VUndefined)
  /\ (type item = COOKIES ->
        extract_arg host_call ctx nx item
        = call_method host_call coll "get" [VStr (parameterName item)]).
Proof.
  intros Hc Hv Hf. unfold extract_arg, getParam.
  assert (Hnz : forall p r, (exists x, get_prop r "null" = Ok x \/ get_prop r "params" = Ok x
                                       \/ get_prop r "body" = Ok x
                                       \/ get_prop r "headers" = Ok x) ->
                            js_or p r <> VUndefined).
  { intros p r [x Hx] Eq. unfold js_or in Eq. destruct (truthy p) eqn:Tp.
    - subst p. discriminate.
    - subst r. simpl in Hx. intuition discriminate. }
  split; [|split]; intro Hty; destruct (type item) eqn:Ety; try discriminate; simpl in *;
    repeat match goal with
           | H : context [get_prop ?a ?k] |- context [get_prop ?a ?k] =>
               destruct (get_prop a k) eqn:?; simpl in *; try discriminate
           end;
    injection Hc as <-; rewrite ?Hv; simpl; rewrite ?Hf; auto;
    split; auto; apply Hnz; eauto 6.
Qed.

(** A request for a route parameter "name" that was not matched gets the
    whole parameter collection; a query parameter that is missing gets
    [undefined]; a body that is a string, asked for a name the engine does
    not find on it, is bound as a whole. *)
Lemma missed_lookup_fallback_witness :
  (extract_arg no_host_call ctx_42 next_fn
     {| parameterName := "name"; index := 0; type := PARAMS |}
   = Ok (plain_object [("id", VStr "42")])
   /\ plain_object [("id", VStr "42")] <> VUndefined)
  /\ extract_arg no_host_call ctx_42 next_fn
       {| parameterName := "name"; index := 0; type := QUERY |} = Ok VUndefined
  /\ (extract_arg no_host_call (koa_ctx [] [] (VStr "raw text") [] []) next_fn
        {| parameterName := "name"; index := 0; type := BODY |}
      = Ok (VStr "raw text")
      /\ VStr "raw text" <> VUndefined).
Proof.
  split; [|split].
  - apply (proj1 (missed_lookup_fallback no_host_call ctx_42 next_fn
                    {| parameterName := "name"; index := 0; type := PARAMS |}
                    (coll := plain_object [("id", VStr "42")]) (v := VUndefined)
                    eq_refl eq_refl eq_refl)).
    reflexivity.
  - apply (proj1 (proj2 (missed_lookup_fallback no_host_call ctx_42 next_fn
                    {| parameterName := "name"; index := 0; type := QUERY |}
                    (coll := VObj [("count", VStr "5")]) (v := VUndefined)
                    eq_refl eq_refl eq_refl))).
    reflexivity.
  - apply (proj1 (missed_lookup_fallback (E := sample_engine) no_host_call
                    (koa_ctx [] [] (VStr "raw text") [] []) next_fn
                    {| parameterName := "name"; index := 0; type := BODY |}
                    (coll := VStr "raw text") (v := VUndefined)
                    eq_refl eq_refl eq_refl)).
    reflexivity.
Defined.

(** A name that every object inherits is found by the lookup: the
    binding [@requestParam("constructor")] yields the function [Object],
    not the parameter collection, and [@requestBody("length")] on a string
    body yields its length. *)
Example inherited_member_is_found :
  extract_arg no_host_call ctx_42 next_fn
    {| parameterName := "constructor"; index := 0; type := PARAMS |}
  = Ok (VFn (FnHost "Object"))
  /\ extract_arg no_host_call (koa_ctx [] [] (VStr "raw text") [] []) next_fn
       {| parameterName := "length"; index := 0; type := BODY |}
     = Ok (VNum 8).
Proof. split; reflexivity. Qed.

(** ** Middleware resolution *)

Lemma resolve_item_spec (c : Container) (m : Middleware) :
  gets c m = true -> resolve_item c m = Ok (spec_resolve c m).
Proof.
  unfold gets, resolve_item, spec_resolve.
  destruct (isBound c m); simpl; [|reflexivity].
  destruct (container_get c m) as [[n|n|n]|e]; simpl; intro H; try reflexivity; discriminate.
Qed.

Lemma resolve_item_inv (c : Container) (m : Middleware) (h : Handler) :
  resolve_item c m = Ok h -> gets c m = true /\ h = spec_resolve c m.
Proof.
  unfold gets, resolve_item, spec_resolve.
  destruct (isBound c m); simpl.
  - destruct (container_get c m) as [[n|n|n]|e]; simpl; intro H;
      try discriminate; injection H as <-; auto.
  - intro H. injection H as <-. auto.
Qed.

Lemma resolve_item_throws (c : Container) (m : Middleware) (e : Error) :
  isBound c m = true -> container_get c m = Throw e -> resolve_item c m = Throw e.
Proof. intros Hb Hg. unfold resolve_item. now rewrite Hb, Hg. Qed.

Lemma resolveMiddleware_ok (c : Container) (ms : list Middleware) :
  resolvable c ms = true -> resolveMiddleware c ms = Ok (map (spec_resolve c) ms).
Proof.
  induction ms as [|m t IH]; simpl; auto.
  intro H. apply andb_true_iff in H. destruct H as [Hm Ht].
  now rewrite (resolve_item_spec c m Hm), (IH Ht).
Qed.

Lemma resolveMiddleware_inv (c : Container) (ms : list Middleware) (hs : list Handler) :
  resolveMiddleware c ms = Ok hs -> resolvable c ms = true /\ hs = map (spec_resolve c) ms.
Proof.
  revert hs; induction ms as [|m t IH]; simpl; intros hs H.
  - injection H as <-. auto.
  - destruct (resolve_item c m) as [h|e] eqn:Eh; simpl in H; [|discriminate].
    destruct (resolveMiddleware c t) as [hs'|e] eqn:Et; simpl in H; [|discriminate].
    injection H as <-. destruct (resolve_item_inv c m Eh) as [Hg ->].
    destruct (IH hs' eq_refl) as [Hr ->]. now rewrite Hg, Hr.
Qed.

Lemma resolveMiddleware_first_failure (c : Container) (pre post : list Middleware)
    (m : Middleware) (e : Error) :
  resolvable c pre = true -> isBound c m = true -> container_get c m = Throw e ->
  resolveMiddleware c (pre ++ m :: post) = Throw e.
Proof.
  induction pre as [|p t IH]; simpl; intros Hp Hb Hg.
  - now rewrite (resolve_item_throws c m Hb Hg).
  - apply andb_true_iff in Hp. destruct Hp as [Hp Ht].
    rewrite (resolve_item_spec c p Hp). simpl. now rewrite (IH Ht Hb Hg).
Qed.

(** C5, as stated, fails in two ways.  An identifier that is not bound
    is returned as it is, and is no callable handler: the router refuses
    it and calling it throws; the same holds for an identifier bound to an
    object that is no function.  And the resolution throws when the
    container fails on a bound identifier. *)
Lemma resolveMiddleware_not_callable_counterexample :
  resolveMiddleware chain_container [mw_A; mw_U] = Ok [HItem mw_A; HItem mw_U]
  /\ callable (HItem mw_U) = false
  /\ (forall k rq,
        run_handler no_host_call no_host_method no_host_middleware chain_server
          (fun n => n) (HItem mw_U) k rq
        = Throw (TypeError "middleware is not a function"))
  /\ resolveMiddleware chain_container [mw_A; mw_O] = Ok [HItem mw_A; HObject "settings"]
  /\ callable (HObject "settings") = false
  /\ sample_isBound mw_X = true
  /\ resolveMiddleware chain_container [mw_A; mw_X; mw_B]
     = Throw (Failure "Ambiguous match found for serviceIdentifier: X").
Proof. repeat split. Qed.

(** C5, amended.  When the container fails on no bound item of the
    list, [resolveMiddleware] returns as many handlers as it was given
    items, in the same order: for an item bound in the container, the
    instance the container returns, behind a forwarding adapter when it is
    a BaseMiddleware and as it is otherwise; for an item that is not
    bound, the item itself.  It returns in no other case: the failure of
    the container on the first bound item it fails on is the failure of
    the resolution.  An item returned as it is is callable exactly when it
    is a function; the adapter forwards the context and the continuation
    to the instance's [handler]; calling a handler that is not callable
    throws. *)
Theorem resolveMiddleware_same_length_and_order {E : Engine}
    (c : Container) (ms : list Middleware) :
  (resolvable c ms = true ->
   exists hs,
     resolveMiddleware c ms = Ok hs
     /\ length hs = length ms
     /\ (forall i m, nth_error ms i = Some m ->
           (isBound c m = true ->
              exists inst, container_get c m = Ok inst
                /\ nth_error hs i = Some (match inst with
                                          | IBaseMiddleware n => HAdapter n
                                          | IHandler n => HInstance n
                                          | IObject n => HObject n
                                          end))
           /\ (isBound c m = false ->
                 nth_error hs i = Some (HItem m)
                 /\ callable (HItem m) = match m with
                                         | MwHandler _ => true
                                         | MwId _ => false
                                         end)))
  /\ (forall hs, resolveMiddleware c ms = Ok hs -> resolvable c ms = true)
  /\ (forall pre m post e,
        ms = pre ++ m :: post -> resolvable c pre = true ->
        isBound c m = true -> container_get c m = Throw e ->
        resolveMiddleware c ms = Throw e)
  /\ (forall host_call host_method host_middleware s routes n k,
        run_handler host_call host_method host_middleware s routes (HAdapter n) k
        = host_middleware (n ++ ".handler")%string k)
  /\ (forall host_call host_method host_middleware s routes h k rq,
        callable h = false ->
        run_handler host_call host_method host_middleware s routes h k rq
        = Throw (TypeError "middleware is not a function")).
Proof.
  split; [|split; [|split; [|split]]].
  - intro Hr. exists (map (spec_resolve c) ms).
    split; [now apply resolveMiddleware_ok|]. split; [apply length_map|].
    intros i m Hi. rewrite nth_error_map, Hi; simpl.
    assert (Hg : gets c m = true).
    { unfold resolvable in Hr. rewrite forallb_forall in Hr. apply Hr.
      eapply nth_error_In; eauto. }
    unfold gets in Hg. unfold spec_resolve. split; intro Hb; rewrite Hb in *; simpl in Hg.
    + destruct (container_get c m) as [inst|e]; [|discriminate].
      exists inst. split; reflexivity.
    + split; [reflexivity|]. now destruct m.
  - intros hs H. now destruct (resolveMiddleware_inv c ms H).
  - intros pre m post e -> Hp Hb Hg. now apply resolveMiddleware_first_failure.
  - reflexivity.
  - intros host_call host_method host_middleware s routes h k rq Hc.
    destruct h as [[x|x]|x|x|x|x y z| |]; simpl in Hc; try discriminate; reflexivity.
Qed.

(** An inline handler and three bound identifiers, resolved in that
    order; a list with an identifier on which the container fails. *)
Lemma resolveMiddleware_same_length_and_order_witness :
  resolveMiddleware chain_container [mw_A; mw_B; mw_U; mw_D]
  = Ok [HItem mw_A; HInstance "spyB"; HItem mw_U; HAdapter "TestMiddleware"]
  /\ (exists hs,
       resolveMiddleware chain_container [mw_A; mw_B; mw_U; mw_D] = Ok hs
       /\ length hs = 4
       /\ nth_error hs 3 = Some (HAdapter "TestMiddleware")
       /\ nth_error hs 2 = Some (HItem mw_U))
  /\ resolveMiddleware chain_container [mw_A; mw_X; mw_B]
     = Throw (Failure "Ambiguous match found for serviceIdentifier: X").
Proof.
  split; [reflexivity|]. split.
  - destruct (proj1 (resolveMiddleware_same_length_and_order chain_container
                       [mw_A; mw_B; mw_U; mw_D]) eq_refl) as [hs [Hr [Hl Hn]]].
    exists hs. split; [exact Hr|]. split; [exact Hl|]. split.
    + destruct (proj1 (Hn 3 mw_D eq_refl) eq_refl) as [inst [Hi Hh]].
      injection Hi as <-. exact Hh.
    + exact (proj1 (proj2 (Hn 2 mw_U eq_refl) eq_refl)).
  - apply (proj1 (proj2 (proj2 (resolveMiddleware_same_length_and_order chain_container
                                  [mw_A; mw_X; mw_B])))
             [mw_A] mw_X [mw_B]); reflexivity.
Defined.

(** ** Route registration *)

Section BuildFacts.

Context {L : RouterLib}.

Lemma add_calls_nil (w : World) : add_calls [] w = w.
Proof.
  destruct w as [a rt l]. unfold add_calls; simpl. now rewrite app_nil_r.
Qed.

Lemma add_calls_app (rs1 rs2 : list Route) (w : World) :
  add_calls (rs1 ++ rs2) w = add_calls rs2 (add_calls rs1 w).
Proof.
  unfold add_calls, router_after; simpl. now rewrite fold_left_app, map_app, app_assoc.
Qed.

Lemma add_calls_cons (r : Route) (rs : list Route) (w : World) :
  add_calls (r :: rs) w = add_calls rs (add_calls [r] w).
Proof. apply (add_calls_app [r] rs). Qed.

(** Where every call is on a route method, the calls are the routes
    added to the router. *)
Lemma router_after_verbs (calls : list Route) :
  forallb route_verb calls = true ->
  forall rt, router_after calls rt
             = {| router_prefix := router_prefix rt;
                  router_stack := router_stack rt ++ calls |}.
Proof.
  induction calls as [|r t IH]; simpl; intros H rt.
  - rewrite app_nil_r. now destruct rt.
  - apply andb_true_iff in H. destruct H as [Hr Ht].
    unfold router_after in *. simpl. rewrite (IH Ht).
    unfold router_step. unfold route_verb in Hr.
    destruct (router_member (verb r)) as [[|f]|]; try discriminate.
    simpl. now rewrite <- app_assoc.
Qed.

(** A call on the router returns, and is logged, or throws, and leaves
    no trace. *)
Lemma router_call_outcome (r : Route) (w : World) :
  router_call r w = (Ok tt, add_calls [r] w) \/ exists e, router_call r w = (Throw e, w).
Proof.
  unfold router_call, add_calls, router_after, router_step; simpl.
  destruct (router_member (verb r)) as [[|f]|]; eauto.
  - destruct (forallb callable (chain r)); eauto.
  - destruct (f (route_path r) (chain r) (router w)); eauto.
Qed.

Lemma router_call_accepted (r : Route) (w : World) :
  accepted r = true -> router_call r w = (Ok tt, add_calls [r] w).
Proof.
  unfold accepted, route_verb, router_call, add_calls, router_after, router_step; simpl.
  destruct (router_member (verb r)) as [[|f]|]; simpl; try discriminate.
  now intros ->.
Qed.

Lemma register_method_outcome (c : Container) (ctl : Class) (cm : ControllerMetadata)
    (m : ControllerMethodMetadata) (w : World) :
  let step := register_method c cm (meta_controllerParameter ctl)
                (map (spec_resolve c) (cm_middleware cm)) m w in
  (resolvable c (mm_middleware m) = true
   /\ step = (Ok tt, add_calls [spec_route c ctl cm m] w))
  \/ exists e, step = (Throw e, w).
Proof.
  simpl. unfold register_method, bindM, lift.
  destruct (resolveMiddleware c (mm_middleware m)) as [hs|e] eqn:Er; [|eauto].
  destruct (resolveMiddleware_inv c _ Er) as [Hr ->].
  change {| verb := mm_method m;
            route_path := (cm_path cm ++ mm_path m)%string;
            chain := map (spec_resolve c) (cm_middleware cm)
                     ++ map (spec_resolve c) (mm_middleware m)
                     ++ [handlerFactory (cm_target cm) (mm_key m)
                           match meta_controllerParameter ctl with
                           | Some o => match assoc (mm_key m) o with
                                       | Some l => l
                                       | None => []
                                       end
                           | None => []
                           end] |}
    with (spec_route c ctl cm m).
  destruct (router_call_outcome (spec_route c ctl cm m) w) as [H|[e H]]; rewrite H; eauto.
Qed.

Lemma forEach_register_method_outcome (c : Container) (ctl : Class)
    (cm : ControllerMetadata) (mms : list ControllerMethodMetadata) :
  forall w res w',
    forEach (register_method c cm (meta_controllerParameter ctl)
               (map (spec_resolve c) (cm_middleware cm))) mms w = (res, w') ->
    exists done rest,
      map (spec_route c ctl cm) mms = done ++ rest
      /\ w' = add_calls done w
      /\ (res = Ok tt -> rest = [])
      /\ (forall r, In r done ->
            exists m, In m mms /\ resolvable c (mm_middleware m) = true
                      /\ r = spec_route c ctl cm m).
Proof.
  induction mms as [|m t IH]; intros w res w' H.
  - simpl in H. unfold ret in H. injection H as <- <-.
    exists [], []. rewrite add_calls_nil. repeat split; auto. intros r [].
  - simpl in H. unfold bindM at 1 in H.
    destruct (register_method_outcome c ctl cm m w) as [[Hr Hs]|[e Hs]];
      simpl in Hs; rewrite Hs in H.
    + destruct (IH _ _ _ H) as [done [rest [Hd [Hw [Hres Hin]]]]].
      exists (spec_route c ctl cm m :: done), rest.
      split; [simpl; now rewrite Hd|]. split; [now rewrite add_calls_cons|].
      split; [exact Hres|].
      intros r [<-|Hr']; [exists m; simpl; auto|].
      destruct (Hin r Hr') as [m' [Hm' H']]. exists m'. simpl; auto.
    + injection H as <- <-.
      exists [], (map (spec_route c ctl cm) (m :: t)).
      rewrite add_calls_nil. repeat split; auto; [discriminate | intros r []].
Qed.

Lemma register_controller_outcome (c : Container) (ctl : Class) :
  forall w res w',
    register_controller c ctl w = (res, w') ->
    exists done rest,
      spec_routes c ctl = done ++ rest
      /\ w' = add_calls done w
      /\ (res = Ok tt -> rest = [])
      /\ (forall r, In r done -> compiled c ctl r).
Proof.
  intros w res w' H. unfold register_controller in H. unfold spec_routes, compiled.
  destruct (meta_controller ctl) as [cm|];
    [destruct (meta_controllerMethod ctl) as [mms|]|].
  - unfold bindM at 1, lift in H.
    destruct (resolveMiddleware c (cm_middleware cm)) as [hs|e] eqn:Er.
    + destruct (resolveMiddleware_inv c _ Er) as [Hr ->].
      destruct (forEach_register_method_outcome c ctl cm mms _ H)
        as [done [rest [Hd [Hw [Hres Hin]]]]].
      exists done, rest. repeat split; auto.
      intros r Hr'. destruct (Hin r Hr') as [m [Hm [Hrm ->]]].
      exists cm, mms, m. repeat split; auto.
    + injection H as <- <-. exists [], (map (spec_route c ctl cm) mms).
      rewrite add_calls_nil. repeat split; auto; [discriminate | intros r []].
  - unfold ret in H. injection H as <- <-. exists [], [].
    rewrite add_calls_nil. repeat split; auto. intros r [].
  - unfold ret in H. injection H as <- <-. exists [], [].
    rewrite add_calls_nil. repeat split; auto. intros r [].
Qed.

Lemma forEach_register_controller_outcome (c : Container) (ctls : list Class) :
  forall w res w',
    forEach (register_controller c) ctls w = (res, w') ->
    exists done rest,
      concat (map (spec_routes c) ctls) = done ++ rest
      /\ w' = add_calls done w
      /\ (res = Ok tt -> rest = [])
      /\ (forall r, In r done -> exists ctl, In ctl ctls /\ compiled c ctl r).
Proof.
  induction ctls as [|ctl t IH]; intros w res w' H.
  - simpl in H. unfold ret in H. injection H as <- <-.
    exists [], []. rewrite add_calls_nil. repeat split; auto. intros r [].
  - simpl in H. unfold bindM at 1 in H.
    destruct (register_controller c ctl w) as [[[]|e] w1] eqn:E1.
    + destruct (register_controller_outcome c ctl _ E1) as [d1 [r1 [Hd1 [Hw1 [Hr1 Hc1]]]]].
      rewrite (Hr1 eq_refl), app_nil_r in Hd1.
      destruct (IH _ _ _ H) as [d2 [r2 [Hd2 [Hw2 [Hr2 Hc2]]]]].
      exists (d1 ++ d2), r2.
      split; [simpl; now rewrite Hd1, Hd2, app_assoc|].
      split; [now rewrite add_calls_app, <- Hw1|]. split; [exact Hr2|].
      intros r Hr. apply in_app_or in Hr. destruct Hr as [Hr|Hr].
      * exists ctl. split; [now left|auto].
      * destruct (Hc2 r Hr) as [ctl' [Hin Hc]]. exists ctl'. split; [now right|auto].
    + destruct (register_controller_outcome c ctl _ E1) as [d1 [r1 [Hd1 [Hw1 [Hr1 Hc1]]]]].
      injection H as <- <-.
      exists d1, (r1 ++ concat (map (spec_routes c) t)).
      split; [simpl; now rewrite Hd1, app_assoc|]. split; [exact Hw1|].
      split; [discriminate|].
      intros r Hr. exists ctl. split; [now left|auto].
Qed.

(** Readiness is enough for the registration to return. *)
Lemma forEach_register_method_ready (c : Container) (ctl : Class)
    (cm : ControllerMetadata) (mms : list ControllerMethodMetadata) :
  forallb (fun m => resolvable c (mm_middleware m) && accepted (spec_route c ctl cm m)) mms
  = true ->
  forall w,
    forEach (register_method c cm (meta_controllerParameter ctl)
               (map (spec_resolve c) (cm_middleware cm))) mms w
    = (Ok tt, add_calls (map (spec_route c ctl cm) mms) w).
Proof.
  induction mms as [|m t IH]; intros H w.
  - simpl. unfold ret. now rewrite add_calls_nil.
  - simpl in H. apply andb_true_iff in H. destruct H as [Hm Ht].
    apply andb_true_iff in Hm. destruct Hm as [Hr Ha].
    simpl forEach. unfold bindM at 1.
    unfold register_method, bindM, lift.
    rewrite (resolveMiddleware_ok c _ Hr).
    change {| verb := mm_method m;
              route_path := (cm_path cm ++ mm_path m)%string;
              chain := map (spec_resolve c) (cm_middleware cm)
                       ++ map (spec_resolve c) (mm_middleware m)
                       ++ [handlerFactory (cm_target cm) (mm_key m)
                             match meta_controllerParameter ctl with
                             | Some o => match assoc (mm_key m) o with
                                         | Some l => l
                                         | None => []
                                         end
                             | None => []
                             end] |}
      with (spec_route c ctl cm m).
    rewrite (router_call_accepted _ w Ha).
    fold (bindM (A := unit) (B := unit)).
    rewrite (IH Ht). simpl map. f_equal. symmetry. apply add_calls_cons.
Qed.

Lemma register_controller_ready (c : Container) (ctl : Class) (w : World) :
  controller_ready c ctl = true ->
  register_controller c ctl w = (Ok tt, add_calls (spec_routes c ctl) w).
Proof.
  unfold controller_ready, register_controller, spec_routes.
  destruct (meta_controller ctl) as [cm|];
    [destruct (meta_controllerMethod ctl) as [mms|]|];
    try (intros _; unfold ret; now rewrite add_calls_nil).
  intro H. apply andb_true_iff in H. destruct H as [Hc Hm].
  unfold bindM, lift. rewrite (resolveMiddleware_ok c _ Hc).
  now apply forEach_register_method_ready.
Qed.

Lemma forEach_register_controller_ready (c : Container) (ctls : list Class) :
  forallb (controller_ready c) ctls = true ->
  forall w,
    forEach (register_controller c) ctls w
    = (Ok tt, add_calls (concat (map (spec_routes c) ctls)) w).
Proof.
  induction ctls as [|ctl t IH]; intros H w.
  - simpl. unfold ret. now rewrite add_calls_nil.
  - simpl in H. apply andb_true_iff in H. destruct H as [Hc Ht].
    simpl. unfold bindM. rewrite (register_controller_ready c ctl w Hc), (IH Ht).
    now rewrite add_calls_app.
Qed.

Lemma controller_ready_verbs (c : Container) (ctl : Class) :
  controller_ready c ctl = true -> forallb route_verb (spec_routes c ctl) = true.
Proof.
  unfold controller_ready, spec_routes.
  destruct (meta_controller ctl) as [cm|];
    [destruct (meta_controllerMethod ctl) as [mms|]|]; auto.
  intro H. apply andb_true_iff in H. destruct H as [_ H].
  rewrite forallb_forall in *. intros r Hr.
  apply in_map_iff in Hr. destruct Hr as [m [<- Hm]].
  specialize (H m Hm). apply andb_true_iff in H. destruct H as [_ H].
  unfold accepted in H. apply andb_true_iff in H. tauto.
Qed.

Lemma ready_verbs (c : Container) (ctls : list Class) :
  forallb (controller_ready c) ctls = true ->
  forallb route_verb (concat (map (spec_routes c) ctls)) = true.
Proof.
  induction ctls as [|ctl t IH]; simpl; auto.
  intro H. apply andb_true_iff in H. destruct H as [Hc Ht].
  rewrite forallb_app, (controller_ready_verbs _ _ Hc), (IH Ht). reflexivity.
Qed.

(** The state in which the registration starts. *)
Lemma build_run_unfold (s : InversifyKoaServer) :
  build_run s
  = bindM (match _configFn s with
           | Some fn => apply_config EvConfigFn fn
           | None => ret tt
           end)
      (fun _ =>
         bindM (registerControllers s)
           (fun _ =>
              bindM (match _errorConfigFn s with
                     | Some fn => apply_config EvErrorConfigFn fn
                     | None => ret tt
                     end)
                (fun _ w => (Ok (app w), w))))
      {| app := _app s ++ [HPrincipal]; router := _router s; log := [EvUse HPrincipal] |}.
Proof. reflexivity. Qed.

Lemma registerControllers_outcome (s : InversifyKoaServer) (a : Koa) (l : list Event) :
  forall res w',
    registerControllers s {| app := a; router := _router s; log := l |} = (res, w') ->
    let l' := l ++ (if custom_root s then [EvPrefix (rootPath (_routingConfig s))] else []) in
    exists done rest,
      concat (spec_all_routes s) = done ++ rest
      /\ all_compiled s done
      /\ ((exists e, res = Throw e
                     /\ w' = {| app := a; router := router_after done (prefixed s);
                                log := l' ++ map EvRegister done |})
          \/ (res = Ok tt /\ rest = []
              /\ bound_Controllers (_container s) <> []
              /\ w' = {| app := a ++ [HRoutes]; router := router_after done (prefixed s);
                         log := l' ++ map EvRegister done ++ [EvUse HRoutes] |})).
Proof.
  intros res w' H. unfold registerControllers in H.
  unfold bindM at 1 in H.
  assert (Hp : (if rootPath (_routingConfig s) =? DEFAULT_ROUTING_ROOT_PATH
                then ret tt
                else router_set_prefix (rootPath (_routingConfig s)))
                 {| app := a; router := _router s; log := l |}
               = (Ok tt, {| app := a; router := prefixed s;
                            log := l ++ (if custom_root s
                                         then [EvPrefix (rootPath (_routingConfig s))]
                                         else []) |})).
  { unfold prefixed, custom_root.
    destruct (rootPath (_routingConfig s) =? DEFAULT_ROUTING_ROOT_PATH)%string; simpl.
    - unfold ret. rewrite app_nil_r. reflexivity.
    - reflexivity. }
  rewrite Hp in H. clear Hp. simpl.
  unfold bindM at 1, lift, getAll_Controller in H. unfold spec_all_routes.
  destruct (bound_Controllers (_container s)) as [|ctl ctls] eqn:Eb.
  - injection H as <- <-. exists [], []. split; [reflexivity|].
    split; [intros r []|]. left. eexists. split; [reflexivity|].
    simpl. now rewrite app_nil_r.
  - unfold bindM at 1 in H.
    destruct (forEach (register_controller (_container s)) (ctl :: ctls)
                {| app := a; router := prefixed s;
                   log := l ++ (if custom_root s
                                then [EvPrefix (rootPath (_routingConfig s))]
                                else []) |}) as [[[]|e] w1] eqn:Ef;
      destruct (forEach_register_controller_outcome _ _ _ Ef)
        as [done [rest [Hd [Hw [Hr Hc]]]]];
      exists done, rest; (split; [exact Hd|]);
      (split; [intros r Hin; rewrite Eb; now apply Hc|]).
    + right. unfold app_use in H. injection H as <- <-. subst w1.
      split; [reflexivity|]. split; [now apply Hr|].
      split; [discriminate|]. simpl.
      now rewrite <- app_assoc.
    + left. injection H as <- <-. subst w1. eexists. split; reflexivity.
Qed.

(** The call of a configuration function that is set. *)
Lemma config_step (fn : option ConfigFunction) (ev : Event) (w : World) :
  match fn with
  | Some f => apply_config ev f
  | None => ret tt
  end w
  = (match fn with Some f => fst (f (app w)) | None => Ok tt end,
     {| app := opt_apply fn (app w); router := router w;
        log := log w ++ opt_event fn ev |}).
Proof.
  destruct fn as [f|]; simpl; [reflexivity|].
  unfold ret. rewrite app_nil_r. now destruct w.
Qed.

Lemma config_step_ok (fn : option ConfigFunction) (a : Koa) :
  config_ok fn a = true ->
  match fn with Some f => fst (f a) | None => Ok tt end = Ok tt.
Proof.
  unfold config_ok. destruct fn as [f|]; [|reflexivity].
  destruct (fst (f a)) as [[]|e]; [reflexivity|discriminate].
Qed.

Lemma config_step_cases (fn : option ConfigFunction) (a : Koa) :
  (config_ok fn a = true
   /\ match fn with Some f => fst (f a) | None => Ok tt end = Ok tt)
  \/ exists f e, fn = Some f /\ fst (f a) = Throw e
                 /\ match fn with Some f => fst (f a) | None => Ok tt end = Throw e.
Proof.
  unfold config_ok. destruct fn as [f|]; [|now left].
  destruct (fst (f a)) as [[]|e] eqn:Ef; [now left|].
  right. exists f, e. now rewrite Ef.
Qed.

(** A build ends in one of the four expected ways. *)
Lemma build_run_cases (s : InversifyKoaServer) (res : Result Koa) (w : World) :
  build_run s = (res, w) -> build_outcome s res w.
Proof.
  intro H. rewrite build_run_unfold in H. unfold bindM at 1 in H.
  rewrite config_step in H. cbn [app router log] in H.
  fold (configured_app s) in H.
  destruct (config_step_cases (_configFn s) (_app s ++ [HPrincipal]))
    as [[Hok Hc]|[fn [e [Hfn [He Hc]]]]]; rewrite Hc in H.
  2:{ injection H as <- <-. rewrite Hfn. now apply config_threw with (fn := fn). }
  unfold bindM at 1 in H.
  destruct (registerControllers s
              {| app := configured_app s; router := _router s;
                 log := [EvUse HPrincipal] ++ opt_event (_configFn s) EvConfigFn |})
    as [res1 w1] eqn:Er.
  destruct (registerControllers_outcome s _ _ Er) as [done [rest [Hd [Hall Hcase]]]].
  change (([EvUse HPrincipal] ++ opt_event (_configFn s) EvConfigFn)
          ++ (if custom_root s then [EvPrefix (rootPath (_routingConfig s))] else []))
    with (head_log s) in Hcase.
  destruct Hcase as [[e [-> ->]]|[-> [-> [Hne ->]]]].
  - injection H as <- <-. now apply registration_threw with (rest := rest).
  - rewrite app_nil_r in Hd. subst done.
    unfold bindM at 1 in H. rewrite config_step in H. cbn [app router log] in H.
    change (configured_app s ++ [HRoutes]) with (mounted_app s) in H.
    fold (final_app s) in H.
    assert (Hlog : (head_log s ++ map EvRegister (concat (spec_all_routes s))
                    ++ [EvUse HRoutes]) ++ opt_event (_errorConfigFn s) EvErrorConfigFn
                   = final_log s).
    { unfold final_log. now rewrite <- !app_assoc. }
    rewrite Hlog in H.
    destruct (config_step_cases (_errorConfigFn s) (mounted_app s))
      as [[Hok' Hc']|[fn [e [Hfn [He Hc']]]]]; rewrite Hc' in H;
      injection H as <- <-.
    + now apply build_returned.
    + pose proof (@errorConfig_threw _ s fn e Hok Hne Hall Hfn He) as B.
      unfold final_log. rewrite Hfn. exact B.
Qed.

Lemma build_run_outcome (s : InversifyKoaServer) :
  build_outcome s (fst (build_run s)) (snd (build_run s)).
Proof. apply build_run_cases. now destruct (build_run s). Qed.

Lemma build_is_build_run (s : InversifyKoaServer) (a : Koa) (w : World) :
  build s = Ok (a, w) <-> build_run s = (Ok a, w).
Proof.
  unfold build. destruct (build_run s) as [[a'|e] w']; split; intro H;
    try discriminate; now injection H as <- <-.
Qed.

(** What a build that returns leaves. *)
Lemma build_returned_inv (s : InversifyKoaServer) (a : Koa) (w : World) :
  build s = Ok (a, w) ->
  a = final_app s
  /\ w = {| app := final_app s;
            router := router_after (concat (spec_all_routes s)) (prefixed s);
            log := final_log s |}
  /\ all_compiled s (concat (spec_all_routes s))
  /\ bound_Controllers (_container s) <> [].
Proof.
  intro H. apply build_is_build_run in H.
  pose proof (build_run_outcome s) as B. rewrite H in B. simpl in B.
  inversion B; subst. repeat split; auto.
Qed.

(** Readiness is enough for the build to return. *)
Lemma build_ok (s : InversifyKoaServer) :
  build_ready s = true ->
  build s = Ok (final_app s,
                {| app := final_app s;
                   router := {| router_prefix := router_prefix (prefixed s);
                                router_stack := router_stack (_router s)
                                                ++ concat (spec_all_routes s) |};
                   log := final_log s |}).
Proof.
  intro H. unfold build_ready in H.
  apply andb_true_iff in H. destruct H as [H He].
  apply andb_true_iff in H. destruct H as [H Hr].
  apply andb_true_iff in H. destruct H as [Hc Hb].
  assert (R : exists a, fst (build_run s) = Ok a).
  { rewrite build_run_unfold. unfold bindM at 1.
    rewrite config_step. cbn [app router log]. rewrite (config_step_ok _ _ Hc).
    unfold bindM at 1. unfold registerControllers.
    unfold bindM at 1.
    destruct ((if rootPath (_routingConfig s) =? DEFAULT_ROUTING_ROOT_PATH
               then ret tt
               else router_set_prefix (rootPath (_routingConfig s)))
                {| app := opt_apply (_configFn s) (_app s ++ [HPrincipal]);
                   router := _router s;
                   log := [EvUse HPrincipal] ++ opt_event (_configFn s) EvConfigFn |})
      as [r0 w0] eqn:E0.
    assert (r0 = Ok tt /\ app w0 = configured_app s) as [-> Ha0].
    { destruct (rootPath (_routingConfig s) =? DEFAULT_ROUTING_ROOT_PATH)%string;
        injection E0 as <- <-; split; reflexivity. }
    unfold bindM at 1, lift, getAll_Controller.
    destruct (bound_Controllers (_container s)) as [|ctl ctls] eqn:Eb; [discriminate|].
    unfold bindM at 1. rewrite (forEach_register_controller_ready _ _ Hr).
    unfold app_use, bindM. rewrite config_step. unfold add_calls.
    cbn [app router log fst]. rewrite Ha0.
    change (configured_app s ++ [HRoutes]) with (mounted_app s).
    rewrite (config_step_ok _ _ He). cbn [fst]. eauto. }
  destruct R as [a Ha].
  assert (Hb' : build s = Ok (a, snd (build_run s))).
  { apply build_is_build_run. rewrite <- Ha. now destruct (build_run s). }
  destruct (build_returned_inv s Hb') as [-> [Hw _]].
  rewrite Hb', Hw. rewrite router_after_verbs by (now apply ready_verbs).
  unfold prefixed. destruct (custom_root s); reflexivity.
Qed.

End BuildFacts.

Lemma Forall2_map_right (A B : Type) (P : A -> B -> Prop) (f : A -> B) (l : list A) :
  (forall x, In x l -> P x (f x)) -> Forall2 P l (map f l).
Proof.
  induction l as [|x t IH]; intro H; simpl; constructor.
  - apply H. now left.
  - apply IH. intros y Hy. apply H. now right.
Qed.

Lemma filter_map_EvRegister (p : Event -> bool) (rs : list Route) :
  (forall r, p (EvRegister r) = true) ->
  filter p (map EvRegister rs) = map EvRegister rs.
Proof.
  intro H. induction rs as [|r t IH]; simpl; auto. now rewrite H, IH.
Qed.

Lemma filter_map_EvRegister_none (p : Event -> bool) (rs : list Route) :
  (forall r, p (EvRegister r) = false) ->
  filter p (map EvRegister rs) = [].
Proof.
  intro H. induction rs as [|r t IH]; simpl; auto. now rewrite H, IH.
Qed.

Lemma In_map_EvRegister (r : Route) (rs : list Route) :
  In (EvRegister r) (map EvRegister rs) -> In r rs.
Proof.
  intro H. apply in_map_iff in H. destruct H as [r' [Eq Hr]]. now injection Eq as ->.
Qed.

Section OutcomeFacts.

Context {L : RouterLib}.

(** The log of a build, whatever its outcome: the principal
    middleware, the configuration function if there is one, the prefix,
    some of the expected calls on the router, and, when all of them were
    made, the mount and the error configuration function if there is
    one. *)
Lemma outcome_shape (s : InversifyKoaServer) (res : Result Koa) (w : World) :
  build_outcome s res w ->
  exists pre done rest tail,
    log w = [EvUse HPrincipal] ++ opt_event (_configFn s) EvConfigFn
            ++ pre ++ map EvRegister done ++ tail
    /\ concat (spec_all_routes s) = done ++ rest
    /\ all_compiled s done
    /\ ((pre = [] /\ done = [] /\ tail = [])
        \/ pre = (if custom_root s then [EvPrefix (rootPath (_routingConfig s))] else []))
    /\ ((tail = [] /\ exists e, res = Throw e)
        \/ (rest = []
            /\ tail = [EvUse HRoutes] ++ opt_event (_errorConfigFn s) EvErrorConfigFn)).
Proof.
  intro B. inversion B as [fn e Hfn He | e done rest Hok Hd Hall | fn e Hok Hne Hall Hfn He
                           | Hok Hne Hall He]; subst.
  - exists [], [], (concat (spec_all_routes s)), []. rewrite Hfn.
    split; [reflexivity|]. split; [reflexivity|]. split; [intros r []|].
    split; [left; auto|]. left. split; eauto.
  - exists (if custom_root s then [EvPrefix (rootPath (_routingConfig s))] else []),
           done, rest, [].
    split; [simpl; unfold head_log; now rewrite app_nil_r, <- !app_assoc|].
    split; [assumption|]. split; [assumption|]. split; [now right|].
    left. split; eauto.
  - exists (if custom_root s then [EvPrefix (rootPath (_routingConfig s))] else []),
           (concat (spec_all_routes s)), [], [EvUse HRoutes; EvErrorConfigFn].
    split; [simpl; unfold head_log; now rewrite <- !app_assoc|].
    split; [now rewrite app_nil_r|]. split; [assumption|]. split; [now right|].
    right. rewrite Hfn. split; reflexivity.
  - exists (if custom_root s then [EvPrefix (rootPath (_routingConfig s))] else []),
           (concat (spec_all_routes s)), [],
           ([EvUse HRoutes] ++ opt_event (_errorConfigFn s) EvErrorConfigFn).
    split; [simpl; unfold final_log, head_log; now rewrite <- !app_assoc|].
    split; [now rewrite app_nil_r|]. split; [assumption|]. split; [now right|].
    right. split; reflexivity.
Qed.

Lemma build_run_shape (s : InversifyKoaServer) :
  exists pre done rest tail,
    log (snd (build_run s))
    = [EvUse HPrincipal] ++ opt_event (_configFn s) EvConfigFn
      ++ pre ++ map EvRegister done ++ tail
    /\ concat (spec_all_routes s) = done ++ rest
    /\ all_compiled s done
    /\ ((pre = [] /\ done = [] /\ tail = [])
        \/ pre = (if custom_root s then [EvPrefix (rootPath (_routingConfig s))] else []))
    /\ ((tail = [] /\ exists e, fst (build_run s) = Throw e)
        \/ (rest = []
            /\ tail = [EvUse HRoutes] ++ opt_event (_errorConfigFn s) EvErrorConfigFn)).
Proof. apply outcome_shape, build_run_outcome. Qed.

(** The registrations in a log of that shape. *)
Lemma shape_registrations (cfg errcfg : option ConfigFunction) (pre tail : list Event)
    (done : list Route) (root : string) (b : bool) :
  (pre = [] \/ pre = (if b then [EvPrefix root] else [])) ->
  (tail = [] \/ tail = [EvUse HRoutes] ++ opt_event errcfg EvErrorConfigFn) ->
  filter is_register ([EvUse HPrincipal] ++ opt_event cfg EvConfigFn
                      ++ pre ++ map EvRegister done ++ tail)
  = map EvRegister done
  /\ forall r, In (EvRegister r) ([EvUse HPrincipal] ++ opt_event cfg EvConfigFn
                                  ++ pre ++ map EvRegister done ++ tail) -> In r done.
Proof.
  intros Hpre Htail.
  assert (Hp : filter is_register pre = [] /\ forall r, ~ In (EvRegister r) pre).
  { destruct Hpre as [->| ->]; [split; [reflexivity|intros r []]|].
    destruct b; split; try reflexivity; intros r H; simpl in H; intuition discriminate. }
  assert (Ht : filter is_register tail = [] /\ forall r, ~ In (EvRegister r) tail).
  { destruct Htail as [->| ->]; [split; [reflexivity|intros r []]|].
    destruct errcfg; split; try reflexivity; intros r H; simpl in H; intuition discriminate. }
  assert (Hc : filter is_register (opt_event cfg EvConfigFn) = []
               /\ forall r, ~ In (EvRegister r) (opt_event cfg EvConfigFn)).
  { destruct cfg; split; try reflexivity; intros r H; simpl in H; intuition discriminate. }
  destruct Hp as [Hp1 Hp2], Ht as [Ht1 Ht2], Hc as [Hc1 Hc2]. split.
  - simpl. rewrite !filter_app, Hc1, Hp1, Ht1, filter_map_EvRegister by reflexivity.
    simpl. now rewrite app_nil_r.
  - intros r H. simpl in H. destruct H as [H|H]; [discriminate|].
    repeat (apply in_app_or in H; destruct H as [H|H]);
      try (now apply In_map_EvRegister); exfalso; eauto.
    + now apply (Hc2 r).
    + now apply (Hp2 r).
    + now apply (Ht2 r).
Qed.

End OutcomeFacts.

(** The calls and the routes of a build that returns. *)
Lemma build_returned_registrations {L : RouterLib} (s : InversifyKoaServer)
    (a : Koa) (w : World) :
  build s = Ok (a, w) ->
  filter is_register (log w) = map EvRegister (concat (spec_all_routes s))
  /\ (forallb route_verb (concat (spec_all_routes s)) = true ->
      router_stack (router w) = router_stack (_router s) ++ concat (spec_all_routes s)).
Proof.
  intro Hb. destruct (build_returned_inv s Hb) as [_ [-> _]]. simpl. split.
  - unfold final_log, head_log.
    rewrite <- !app_assoc.
    apply (shape_registrations (_configFn s) (_errorConfigFn s)
             (pre := if custom_root s then [EvPrefix (rootPath (_routingConfig s))] else [])
             (concat (spec_all_routes s)) (rootPath (_routingConfig s)) (custom_root s));
      auto.
  - intro Hv. rewrite (router_after_verbs _ Hv). simpl.
    unfold prefixed. now destruct (custom_root s).
Qed.





Lemma resolve_items_in_order (c : Container) (ms : list Middleware) :
  resolvable c ms = true ->
  Forall2 (fun item h => resolve_item c item = Ok h) ms (map (spec_resolve c) ms).
Proof.
  intro H. apply Forall2_map_right. intros m Hm. apply resolve_item_spec.
  unfold resolvable in H. rewrite forallb_forall in H. now apply H.
Qed.

(** The chain of a compiled route. *)
Lemma compiled_chain (c : Container) (ctl : Class) (r : Route) :
  compiled c ctl r ->
  exists cm mms m controllerMiddleware routeMiddleware,
    meta_controller ctl = Some cm
    /\ meta_controllerMethod ctl = Some mms
    /\ In m mms
    /\ resolveMiddleware c (cm_middleware cm) = Ok controllerMiddleware
    /\ resolveMiddleware c (mm_middleware m) = Ok routeMiddleware
    /\ Forall2 (fun item h => resolve_item c item = Ok h)
               (cm_middleware cm) controllerMiddleware
    /\ Forall2 (fun item h => resolve_item c item = Ok h)
               (mm_middleware m) routeMiddleware
    /\ verb r = mm_method m
    /\ route_path r = (cm_path cm ++ mm_path m)%string
    /\ chain r = controllerMiddleware ++ routeMiddleware
                 ++ [handlerFactory (cm_target cm) (mm_key m)
                       (spec_paramList ctl (mm_key m))].
Proof.
  intros [cm [mms [m [Hcm [Hmms [Hm [Hrc [Hrm ->]]]]]]]].
  exists cm, mms, m, (map (spec_resolve c) (cm_middleware cm)),
         (map (spec_resolve c) (mm_middleware m)).
  split; [assumption|]. split; [assumption|]. split; [assumption|].
  split; [now apply resolveMiddleware_ok|]. split; [now apply resolveMiddleware_ok|].
  split; [now apply resolve_items_in_order|]. split; [now apply resolve_items_in_order|].
  split; [reflexivity|]. split; reflexivity.
Qed.

(** C3.  For every call [router[verb](path, ...chain)] that a build
    makes, whether the build returns or throws later, the chain is the
    resolved middleware of the controller, item by item in declaration
    order, then the resolved middleware of the method, item by item in
    declaration order, then the invocation handler that [handlerFactory]
    builds for the method.  When nothing stops the build, it returns, the
    routes it adds to the router are those calls, and every method entry
    of every decorated controller has its route among them. *)
Theorem route_chain_in_declaration_order {L : RouterLib} (s : InversifyKoaServer) :
  (forall r,
     In (EvRegister r) (log (snd (build_run s))) ->
     exists ctl cm mms m controllerMiddleware routeMiddleware,
       In ctl (bound_Controllers (_container s))
       /\ meta_controller ctl = Some cm
       /\ meta_controllerMethod ctl = Some mms
       /\ In m mms
       /\ resolveMiddleware (_container s) (cm_middleware cm) = Ok controllerMiddleware
       /\ resolveMiddleware (_container s) (mm_middleware m) = Ok routeMiddleware
       /\ Forall2 (fun item h => resolve_item (_container s) item = Ok h)
                  (cm_middleware cm) controllerMiddleware
       /\ Forall2 (fun item h => resolve_item (_container s) item = Ok h)
                  (mm_middleware m) routeMiddleware
       /\ verb r = mm_method m
       /\ route_path r = (cm_path cm ++ mm_path m)%string
       /\ chain r = controllerMiddleware ++ routeMiddleware
                    ++ [handlerFactory (cm_target cm) (mm_key m)
                          (spec_paramList ctl (mm_key m))])
  /\ (build_ready s = true ->
      exists a w added,
        build s = Ok (a, w)
        /\ router_stack (router w) = router_stack (_router s) ++ added
        /\ (forall r, In r added <-> In (EvRegister r) (log w))
        /\ (forall ctl cm mms m,
              In ctl (bound_Controllers (_container s)) ->
              meta_controller ctl = Some cm ->
              meta_controllerMethod ctl = Some mms ->
              In m mms ->
              exists r, In r added
                        /\ verb r = mm_method m
                        /\ route_path r = (cm_path cm ++ mm_path m)%string)).
Proof.
  split.
  - intros r Hr.
    destruct (build_run_shape s) as [pre [done [rest [tail [Hl [Hd [Hall [Hp Ht]]]]]]]].
    rewrite Hl in Hr.
    assert (Hin : In r done).
    { destruct (shape_registrations (_configFn s) (_errorConfigFn s) done
                  (rootPath (_routingConfig s)) (custom_root s)
                  (pre := pre) (tail := tail)) as [_ Hin'].
      - destruct Hp as [[-> _]| ->]; auto.
      - destruct Ht as [[-> _]|[_ ->]]; auto.
      - now apply Hin'. }
    destruct (Hall r Hin) as [ctl [Hctl Hc]].
    destruct (compiled_chain Hc) as [cm [mms [m [cmw [rmw H]]]]].
    exists ctl, cm, mms, m, cmw, rmw. split; [exact Hctl|exact H].
  - intro Hr. pose proof (build_ok s Hr) as Hb.
    eexists. eexists. exists (concat (spec_all_routes s)).
    split; [exact Hb|]. split; [reflexivity|]. split.
    + intro r. simpl. unfold final_log, head_log. rewrite <- !app_assoc. split.
      * intro Hin. right. apply in_or_app. right. apply in_or_app. right.
        apply in_or_app. left. now apply in_map.
      * destruct (shape_registrations (_configFn s) (_errorConfigFn s)
                    (concat (spec_all_routes s))
                    (rootPath (_routingConfig s)) (custom_root s)
                    (pre := if custom_root s
                            then [EvPrefix (rootPath (_routingConfig s))] else [])
                    (tail := [EvUse HRoutes]
                             ++ opt_event (_errorConfigFn s) EvErrorConfigFn))
          as [_ Hin']; auto.
    + intros ctl cm mms m Hctl Hcm Hmms Hm.
      exists (spec_route (_container s) ctl cm m).
      split; [|split; reflexivity].
      apply in_concat. exists (spec_routes (_container s) ctl). split.
      * unfold spec_all_routes. now apply in_map.
      * unfold spec_routes. rewrite Hcm, Hmms. now apply in_map.
Qed.

(** Controller middleware [A, B, C] and method middleware [D] give the
    chain [A, B, C, D, invocation handler]. *)
Lemma route_chain_in_declaration_order_witness :
  exists a w,
    build chain_server = Ok (a, w)
    /\ map chain (router_stack (router w))
       = [[HItem mw_A; HInstance "spyB"; HInstance "spyC"; HAdapter "TestMiddleware";
           HInvoke "ChainController" "list" []]]
    /\ forall r, In r (router_stack (router w)) ->
         exists cmw rmw,
           resolveMiddleware chain_container [mw_A; mw_B; mw_C] = Ok cmw
           /\ resolveMiddleware chain_container [mw_D] = Ok rmw
           /\ chain r = cmw ++ rmw ++ [handlerFactory "ChainController" "list" []].
Proof.
  destruct (route_chain_in_declaration_order chain_server) as [Hlog Hready].
  destruct (Hready eq_refl) as [a [w [added [Hb [Hs [Hiff _]]]]]].
  exists a, w. split; [exact Hb|].
  pose proof Hb as Hb'. vm_compute in Hb'. injection Hb' as Ha Hw.
  split; [rewrite <- Hw; reflexivity|].
  intros r Hr. rewrite <- Hw in Hr. simpl in Hr. destruct Hr as [<-|[]].
  eexists. eexists. split; [reflexivity|]. split; reflexivity.
Defined.

(** ** Order of the build *)

Section LogFacts.

Variables (cfg errcfg : option ConfigFunction) (pre tail : list Event)
          (done : list Route) (root : string) (b : bool).

Hypothesis Hpre : pre = [] \/ pre = (if b then [EvPrefix root] else []).

Lemma shape_filter (p : Event -> bool) :
  p (EvUse HPrincipal) = false ->
  (forall x, p (EvPrefix x) = false) ->
  (forall r, p (EvRegister r) = false) ->
  filter p ([EvUse HPrincipal] ++ opt_event cfg EvConfigFn
            ++ pre ++ map EvRegister done ++ tail)
  = filter p (opt_event cfg EvConfigFn) ++ filter p tail.
Proof.
  intros H1 H2 H3.
  assert (Hp : filter p pre = []).
  { destruct Hpre as [->| ->]; [reflexivity|]. destruct b; simpl; [now rewrite H2|reflexivity]. }
  simpl. rewrite H1, !filter_app, Hp, filter_map_EvRegister_none by assumption.
  reflexivity.
Qed.

Lemma shape_mount :
  In (EvUse HRoutes) ([EvUse HPrincipal] ++ opt_event cfg EvConfigFn
                      ++ pre ++ map EvRegister done ++ tail) ->
  In (EvUse HRoutes) tail.
Proof.
  intro H. simpl in H. destruct H as [H|H]; [discriminate|].
  repeat (apply in_app_or in H; destruct H as [H|H]); auto; exfalso.
  - destruct cfg; simpl in H; intuition discriminate.
  - destruct Hpre as [->| ->]; [destruct H|].
    destruct b; simpl in H; intuition discriminate.
  - apply in_map_iff in H. destruct H as [r [Eq _]]. discriminate.
Qed.

Lemma shape_before_register (r : Route) (a : Event) (l1 : list Event) :
  In r done ->
  [EvUse HPrincipal] ++ opt_event cfg EvConfigFn = l1 ++ [a] ->
  before a (EvRegister r) ([EvUse HPrincipal] ++ opt_event cfg EvConfigFn
                           ++ pre ++ map EvRegister done ++ tail).
Proof.
  intros Hin Ha. destruct (in_split _ _ Hin) as [d1 [d2 ->]].
  exists l1, (pre ++ map EvRegister d1), (map EvRegister d2 ++ tail).
  rewrite (app_assoc [EvUse HPrincipal]), Ha, map_app. simpl.
  now rewrite <- !app_assoc.
Qed.

Lemma shape_register_before (r : Route) (a : Event) (t1 t2 : list Event) :
  In r done ->
  tail = t1 ++ a :: t2 ->
  before (EvRegister r) a ([EvUse HPrincipal] ++ opt_event cfg EvConfigFn
                           ++ pre ++ map EvRegister done ++ tail).
Proof.
  intros Hin ->. destruct (in_split _ _ Hin) as [d1 [d2 ->]].
  exists ([EvUse HPrincipal] ++ opt_event cfg EvConfigFn ++ pre ++ map EvRegister d1),
         (map EvRegister d2 ++ t1), t2.
  rewrite map_app. simpl. now rewrite <- !app_assoc.
Qed.

End LogFacts.

Lemma final_log_shape {L : RouterLib} (s : InversifyKoaServer) :
  final_log s
  = [EvUse HPrincipal] ++ opt_event (_configFn s) EvConfigFn
    ++ (if custom_root s then [EvPrefix (rootPath (_routingConfig s))] else [])
    ++ map EvRegister (concat (spec_all_routes s))
    ++ ([EvUse HRoutes] ++ opt_event (_errorConfigFn s) EvErrorConfigFn).
Proof. unfold final_log, head_log. now rewrite <- !app_assoc. Qed.

(** C6, as stated, fails when the registration throws.  With no
    controller bound and both configuration functions set, the build
    throws: the configuration function was invoked, the error
    configuration function never is, and nothing is returned. *)
Lemma build_without_controllers_counterexample :
  _configFn empty_server = Some cfg_logger
  /\ _errorConfigFn empty_server = Some cfg_errors
  /\ fst (build_run empty_server)
     = Throw (NotBound "No matching bindings found for serviceIdentifier: Symbol(Controller)")
  /\ log (snd (build_run empty_server)) = [EvUse HPrincipal; EvConfigFn]
  /\ filter is_errorConfigFn (log (snd (build_run empty_server))) = []
  /\ forall a w, build empty_server <> Ok (a, w).
Proof. repeat split. intros a w. discriminate. Qed.

(** C6, amended.  The configuration function, if one is set, is
    invoked exactly once in a build, before every call that registers a
    route.  The error configuration function, if one is set, is invoked
    only once every controller route was registered and the router was
    mounted on the application, and then exactly once, after the mount;
    when the registration throws, the router is not mounted, the error
    configuration function is not invoked and the build throws.  A
    function that is not set is not invoked.  A build that returns
    returns the application, as the error configuration function left it,
    with the router mounted; and the build returns when nothing stops
    it. *)
Theorem build_config_order {L : RouterLib} (s : InversifyKoaServer) :
  let res := fst (build_run s) in
  let w := snd (build_run s) in
  (forall fn, _configFn s = Some fn ->
     length (filter is_configFn (log w)) = 1
     /\ forall r, In (EvRegister r) (log w) -> before EvConfigFn (EvRegister r) (log w))
  /\ (_configFn s = None -> filter is_configFn (log w) = [])
  /\ (forall fn, _errorConfigFn s = Some fn -> In (EvUse HRoutes) (log w) ->
        length (filter is_errorConfigFn (log w)) = 1
        /\ before (EvUse HRoutes) EvErrorConfigFn (log w)
        /\ filter is_register (log w) = map EvRegister (concat (spec_all_routes s))
        /\ forall r, In (EvRegister r) (log w) ->
             before (EvRegister r) EvErrorConfigFn (log w))
  /\ (~ In (EvUse HRoutes) (log w) ->
      filter is_errorConfigFn (log w) = [] /\ exists e, res = Throw e)
  /\ (_errorConfigFn s = None -> filter is_errorConfigFn (log w) = [])
  /\ (forall a, res = Ok a ->
        a = app w /\ a = final_app s /\ length (filter is_mount (log w)) = 1)
  /\ (build_ready s = true -> exists a, res = Ok a).
Proof.
  intros res w. subst res w.
  destruct (build_run_shape s) as [pre [done [rest [tail [Hl [Hd [_ [Hp Ht]]]]]]]].
  assert (Hpre : pre = [] \/ pre = (if custom_root s
                                    then [EvPrefix (rootPath (_routingConfig s))] else []))
    by (destruct Hp as [[-> _]| ->]; auto).
  assert (Htail : tail = [] \/ tail = [EvUse HRoutes]
                                      ++ opt_event (_errorConfigFn s) EvErrorConfigFn)
    by (destruct Ht as [[-> _]|[_ ->]]; auto).
  assert (Hreg : forall r, In (EvRegister r) (log (snd (build_run s))) -> In r done).
  { intros r Hr. rewrite Hl in Hr.
    destruct (shape_registrations (_configFn s) (_errorConfigFn s) done
                (rootPath (_routingConfig s)) (custom_root s) Hpre Htail) as [_ H].
    now apply H. }
  assert (Hcf : filter is_configFn (log (snd (build_run s)))
                = opt_event (_configFn s) EvConfigFn).
  { rewrite Hl, (@shape_filter (_configFn s) pre tail done _ _ Hpre is_configFn)
      by reflexivity.
    destruct Htail as [->| ->]; destruct (_configFn s), (_errorConfigFn s); reflexivity. }
  assert (Hef : filter is_errorConfigFn (log (snd (build_run s)))
                = filter is_errorConfigFn tail).
  { rewrite Hl, (@shape_filter (_configFn s) pre tail done _ _ Hpre is_errorConfigFn)
      by reflexivity.
    destruct (_configFn s); reflexivity. }
  split; [|split; [|split; [|split; [|split; [|split]]]]].
  - intros fn Hfn. split; [now rewrite Hcf, Hfn|].
    intros r Hr. rewrite Hl.
    apply (@shape_before_register (_configFn s) pre tail done r EvConfigFn
             [EvUse HPrincipal]);
      [now apply Hreg | now rewrite Hfn].
  - intro Hn. now rewrite Hcf, Hn.
  - intros fn Hfn Hm. rewrite Hl in Hm.
    apply (@shape_mount (_configFn s) pre tail done _ _ Hpre) in Hm.
    destruct Ht as [[-> _]|[-> ->]]; [destruct Hm|].
    rewrite app_nil_r in Hd. subst done. rewrite Hfn in *. simpl in Hef.
    split; [now rewrite Hef|]. split; [|split].
    + rewrite Hl.
      exists ([EvUse HPrincipal] ++ opt_event (_configFn s) EvConfigFn ++ pre
              ++ map EvRegister (concat (spec_all_routes s))), [], [].
      simpl. now rewrite <- !app_assoc.
    + rewrite Hl.
      apply (shape_registrations (_configFn s) (Some fn) (concat (spec_all_routes s))
               (rootPath (_routingConfig s)) (custom_root s) Hpre). now right.
    + intros r Hr. rewrite Hl.
      apply (@shape_register_before (_configFn s) pre _ (concat (spec_all_routes s)) r
               EvErrorConfigFn [EvUse HRoutes] []);
        [now apply Hreg | reflexivity].
  - intro Hm. destruct Ht as [[-> He]|[_ ->]].
    + split; [now rewrite Hef|exact He].
    + exfalso. apply Hm. rewrite Hl.
      apply in_or_app. right. apply in_or_app. right. apply in_or_app. right.
      apply in_or_app. right. now left.
  - intro Hn. rewrite Hef. destruct Htail as [->| ->]; [reflexivity|]. now rewrite Hn.
  - intros a Ha.
    assert (Hb : build s = Ok (a, snd (build_run s))).
    { apply build_is_build_run. rewrite <- Ha. now destruct (build_run s). }
    destruct (build_returned_inv s Hb) as [Hfa [Hw _]].
    split; [rewrite Hw; exact Hfa|]. split; [exact Hfa|].
    rewrite Hw. cbn [log]. rewrite final_log_shape.
    rewrite (@shape_filter (_configFn s)
               (if custom_root s then [EvPrefix (rootPath (_routingConfig s))] else [])
               _ (concat (spec_all_routes s)) (rootPath (_routingConfig s))
               (custom_root s) (or_intror eq_refl) is_mount)
      by reflexivity.
    destruct (_configFn s), (_errorConfigFn s); reflexivity.
  - intro Hr. rewrite (proj1 (build_is_build_run s _ _) (build_ok s Hr)). simpl. eauto.
Qed.

(** The sample server has both functions set and one route; on the
    server whose configuration function throws, that function was invoked
    once and the error configuration function is not. *)
Lemma build_config_order_witness :
  (exists a,
     fst (build_run chain_server) = Ok a
     /\ a = [HPrincipal; HItem (MwHandler "logger"); HRoutes; HItem (MwHandler "errors")]
     /\ length (filter is_configFn (log (snd (build_run chain_server)))) = 1
     /\ length (filter is_errorConfigFn (log (snd (build_run chain_server)))) = 1
     /\ before (EvUse HRoutes) EvErrorConfigFn (log (snd (build_run chain_server)))
     /\ (forall r, In (EvRegister r) (log (snd (build_run chain_server))) ->
           before EvConfigFn (EvRegister r) (log (snd (build_run chain_server)))
           /\ before (EvRegister r) EvErrorConfigFn (log (snd (build_run chain_server)))))
  /\ (length (filter is_configFn (log (snd (build_run throwing_server)))) = 1
      /\ filter is_errorConfigFn (log (snd (build_run throwing_server))) = []
      /\ exists e, fst (build_run throwing_server) = Throw e).
Proof.
  split.
  - destruct (build_config_order chain_server) as [Hc [_ [He [_ [_ [Hret Hready]]]]]].
    destruct (Hready eq_refl) as [a Ha].
    exists a. split; [exact Ha|].
    destruct (Hret a Ha) as [_ [Hfa _]]. split; [rewrite Hfa; reflexivity|].
    destruct (Hc cfg_logger eq_refl) as [Hc1 Hc2].
    destruct (He cfg_errors eq_refl) as [He1 [He2 [_ He3]]].
    { vm_compute. auto 10. }
    repeat split; auto.
  - destruct (build_config_order throwing_server) as [Hc [_ [_ [Hn _]]]].
    destruct (Hc cfg_throwing eq_refl) as [Hc1 _].
    split; [exact Hc1|]. apply Hn.
    vm_compute. intuition discriminate.
Defined.

(** ** The principal *)






(** ** Authorization *)

(** C1.  The authorization rules are recorded by the decorators but
    never read by the server: decorating a class with [authorizeAll] or
    [authorize] does not change what [registerControllers] does with it.
    The protected controller of the repository's tests gets the chain
    [invocation handler] alone.  On GET /foo with no auth provider the
    principal is not authenticated, and the method is invoked and its
    result "foo" becomes the body, where a 401 is expected; with a
    provider whose principal is authenticated but not in "role a", on the
    method protected by [authorize("role a")], the method is invoked as
    well, where a 403 is expected.  The server sets no status. *)
Theorem authorize_rules_not_enforced {E : Engine} :
  (meta_authorizeAll TestController
   = Some {| aa_requiredRoles := []; aa_target := "TestController" |}
   /\ meta_authorize TestControllerMethodRule
      = Some [("getTest", {| am_requiredRoles := ["role a"]; am_target := "TestController";
                             am_key := "getTest" |})])
  /\ (forall (R : RouterLib) c roles cls,
        register_controller (L := R) c (authorizeAll roles cls)
        = register_controller (L := R) c cls)
  /\ (forall (R : RouterLib) c roles key cls,
        match authorize roles key cls with
        | Ok cls' => register_controller (L := R) c cls' = register_controller (L := R) c cls
        | Throw _ => key = "length"
        end)
  /\ (exists w, build (test_server TestController) = Ok ([HPrincipal; HRoutes], w)
                /\ router_stack (router w) = [getTest_route])
  /\ (exists w, build (test_server_with_provider TestControllerMethodRule)
                = Ok ([HPrincipal; HRoutes], w)
                /\ router_stack (router w) = [getTest_route])
  /\ (exists rq,
        serve test_host_call (test_server TestController) [HPrincipal; HRoutes]
          getTest_route (fresh_request ctx_foo) = Ok rq
        /\ (p <- principal_of rq ;; call_method test_host_call p "isAuthenticated" [])
           = Ok (VBool false)
        /\ get_prop (req_ctx rq) "body" = Ok (VStr "foo")
        /\ get_prop (req_ctx rq) "status" = Ok VUndefined
        /\ get_prop (req_ctx rq) "response" = Ok (plain_object [])
        /\ exists args, req_trace rq = [EvInvoke "TestController" "getTest" args])
  /\ (exists rq,
        serve test_host_call (test_server_with_provider TestControllerMethodRule)
          [HPrincipal; HRoutes] getTest_route (fresh_request ctx_foo) = Ok rq
        /\ (p <- principal_of rq ;; call_method test_host_call p "isAuthenticated" [])
           = Ok (VBool true)
        /\ (p <- principal_of rq ;; call_method test_host_call p "isInRole" [VStr "role a"])
           = Ok (VBool false)
        /\ get_prop (req_ctx rq) "body" = Ok (VStr "foo")
        /\ get_prop (req_ctx rq) "status" = Ok VUndefined
        /\ get_prop (req_ctx rq) "response" = Ok (plain_object [])
        /\ exists args, req_trace rq
                        = [EvGetPrincipal ctx_foo; EvInvoke "TestController" "getTest" args]).
Proof.
  split; [split; reflexivity|].
  split; [reflexivity|].
  split; [intros R c roles key cls; unfold authorize;
          destruct (key =? "length")%string eqn:Ek;
          [now apply String.eqb_eq in Ek | reflexivity]|].
  split; [eexists; split; reflexivity|].
  split; [eexists; split; reflexivity|].
  split.
  - eexists. split; [vm_compute; reflexivity|]. repeat split. eexists. reflexivity.
  - eexists. split; [vm_compute; reflexivity|]. repeat split. eexists. reflexivity.
Qed.

(** * Further properties *)

(** ** Decorators *)

Lemma decorate_methods_name (ds : list MethodDecl) (target : Class) :
  class_name (decorate_methods ds target) = class_name target.
Proof.
  revert target; induction ds as [|d t IH]; intro target; simpl; auto.
  unfold decorate_methods in IH. now rewrite IH.
Qed.

Lemma decorate_methods_spec (ds : list MethodDecl) (target : Class) :
  getMetadataList (meta_controllerMethod (decorate_methods ds target))
  = getMetadataList (meta_controllerMethod target)
    ++ map (method_metadata (class_name target)) ds
  /\ meta_controller (decorate_methods ds target) = meta_controller target
  /\ meta_controllerParameter (decorate_methods ds target) = meta_controllerParameter target
  /\ meta_authorizeAll (decorate_methods ds target) = meta_authorizeAll target
  /\ meta_authorize (decorate_methods ds target) = meta_authorize target.
Proof.
  revert target; induction ds as [|d t IH]; intro target.
  - simpl. rewrite app_nil_r. repeat split.
  - unfold decorate_methods in *. simpl fold_left.
    destruct (IH (httpMethod (d_method d) (d_path d) (d_middleware d) (d_key d) target))
      as [H1 [H2 [H3 [H4 H5]]]].
    rewrite H1, H2, H3, H4, H5. simpl. rewrite <- app_assoc. repeat split.
Qed.

(** X1.  Method decorators accumulate: after any sequence of
    [@httpMethod] decorators the method list of the class is the list it
    had, followed by one entry per decorator, in the order of
    application; nothing is merged, so a method decorated twice has two
    entries.  The other metadata of the class are untouched. *)
Theorem httpMethod_accumulates_in_order (ds : list MethodDecl) (target : Class) :
  getMetadataList (meta_controllerMethod (decorate_methods ds target))
  = getMetadataList (meta_controllerMethod target)
    ++ map (method_metadata (class_name target)) ds
  /\ length (getMetadataList (meta_controllerMethod (decorate_methods ds target)))
     = length (getMetadataList (meta_controllerMethod target)) + length ds
  /\ meta_controller (decorate_methods ds target) = meta_controller target
  /\ meta_controllerParameter (decorate_methods ds target) = meta_controllerParameter target
  /\ meta_authorizeAll (decorate_methods ds target) = meta_authorizeAll target
  /\ meta_authorize (decorate_methods ds target) = meta_authorize target.
Proof.
  destruct (decorate_methods_spec ds target) as [H1 [H2 [H3 [H4 H5]]]].
  split; [exact H1|]. split; [|repeat split; assumption].
  rewrite H1, length_app, length_map. reflexivity.
Qed.






(** X4.  Authorization rules are named properties of an array.  For a
    method name other than "length" and "__proto__", [@authorize(roles)]
    stores the rule under the method's name, replacing an earlier rule of
    that method and leaving the rules of the other methods and the
    class-level rule as they were, so the number of rules grows by one
    exactly when the method had none.  On a method named "length" the
    decorator throws a RangeError and records nothing; on a method named
    "__proto__" it records no rule.  [@authorizeAll(roles)] replaces the
    class-level rule and leaves the method rules alone. *)
Theorem authorize_one_rule_per_method
    (roles : list string) (key : string) (target : Class) :
  (key <> "length" -> key <> "__proto__" ->
   exists target',
     authorize roles key target = Ok target'
     /\ assoc key (authorize_rules target')
        = Some {| am_requiredRoles := roles; am_target := class_name target; am_key := key |}
     /\ (forall k', k' <> key ->
           assoc k' (authorize_rules target') = assoc k' (authorize_rules target))
     /\ length (authorize_rules target')
        = match assoc key (authorize_rules target) with
          | Some _ => length (authorize_rules target)
          | None => S (length (authorize_rules target))
          end
     /\ meta_authorizeAll target' = meta_authorizeAll target)
  /\ authorize roles "length" target = Throw (RangeError "Invalid array length")
  /\ (exists target',
        authorize roles "__proto__" target = Ok target'
        /\ authorize_rules target' = authorize_rules target)
  /\ (forall roles',
        meta_authorizeAll (authorizeAll roles' (authorizeAll roles target))
        = Some {| aa_requiredRoles := roles'; aa_target := class_name target |}
        /\ authorize_rules (authorizeAll roles' target) = authorize_rules target).
Proof.
  split; [|split; [reflexivity|split]].
  - intros Hl Hp. apply String.eqb_neq in Hl, Hp.
    unfold authorize. rewrite Hl, Hp. eexists. split; [reflexivity|].
    unfold authorize_rules; simpl.
    split; [apply assoc_obj_set_same|].
    split; [intros k' Hne; now apply assoc_obj_set_other|].
    split; [apply length_obj_set|reflexivity].
  - eexists. split; reflexivity.
  - intro roles'. split; reflexivity.
Qed.

(** Three methods with a rule each, as in the repository's decorator
    test, give three rules; a second rule on [test] replaces the first. *)
Lemma authorize_one_rule_per_method_witness :
  let cls := applied (authorize ["bar"; "foo"] "test3"
               (applied (authorize ["foo"; "bar"] "test2"
                  (applied (authorize ["role a"; "role b"] "test"
                     (new_class "TestController")))))) in
  length (authorize_rules cls) = 3
  /\ exists cls',
       authorize ["admin"] "test" cls = Ok cls'
       /\ assoc "test" (authorize_rules cls')
          = Some {| am_requiredRoles := ["admin"]; am_target := "TestController";
                    am_key := "test" |}
       /\ length (authorize_rules cls') = 3
       /\ assoc "test2" (authorize_rules cls') = assoc "test2" (authorize_rules cls).
Proof.
  intro cls.
  destruct (proj1 (authorize_one_rule_per_method ["admin"] "test" cls))
    as [cls' [H0 [H1 [H2 [H3 _]]]]]; [discriminate|discriminate|].
  split; [reflexivity|]. exists cls'.
  split; [exact H0|]. split; [exact H1|]. split; [rewrite H3; reflexivity|].
  apply H2. discriminate.
Defined.

(** ** Argument extraction, continued *)

(** X5.  A named lookup that finds a truthy value binds that value, for
    every kind of binding that looks a name up (all but NEXT and the
    [default] branch): the fallbacks of [checkQueryParam] are not
    consulted. *)
Theorem found_value_is_bound {E : Engine}
    (host_call : string -> list value -> Result value) (ctx nx : value)
    (item : ParameterMetadata) (coll v : value) :
  source_collection ctx (type item) = Ok coll ->
  type item <> NEXT ->
  type item <> UNLISTED ->
  get_prop coll (parameterName item) = Ok v ->
  truthy v = true ->
  extract_arg host_call ctx nx item = Ok v.
Proof.
  intros Hc Hn Hu Hv Ht. unfold extract_arg, getParam.
  destruct (type item) eqn:Ety; try congruence; simpl in *;
    repeat match goal with
           | H : context [get_prop ?a ?k] |- context [get_prop ?a ?k] =>
               destruct (get_prop a k) eqn:?; simpl in *; try discriminate
           end;
    injection Hc as <-; rewrite Hv; simpl; now rewrite Ht.
Qed.

(** GET /42?count=5: the route parameter "id" and the query parameter
    "count". *)
Lemma found_value_is_bound_witness :
  extract_arg no_host_call ctx_42 next_fn
    {| parameterName := "id"; index := 0; type := PARAMS |} = Ok (VStr "42")
  /\ extract_arg no_host_call ctx_42 next_fn
       {| parameterName := "count"; index := 1; type := QUERY |} = Ok (VStr "5").
Proof.
  split.
  - apply (@found_value_is_bound _ no_host_call ctx_42 next_fn
             {| parameterName := "id"; index := 0; type := PARAMS |}
             (plain_object [("id", VStr "42")]) (VStr "42"));
      [reflexivity | discriminate | discriminate | reflexivity | reflexivity].
  - apply (@found_value_is_bound _ no_host_call ctx_42 next_fn
             {| parameterName := "count"; index := 1; type := QUERY |}
             (VObj [("count", VStr "5")]) (VStr "5"));
      [reflexivity | discriminate | discriminate | reflexivity | reflexivity].
Defined.

(** X6.  A BODY binding reads the parsed body when the request has
    one, and the request object itself when [request.body] is absent or
    falsy (no body parser): the named property when it is truthy there,
    else the whole body, respectively the whole request object.  The
    properties of an object are those a read finds, inherited ones
    included. *)
Theorem requestBody_reads_body_or_request {E : Engine}
    (host_call : string -> list value -> Result value) (ctx nx : value)
    (rprops : object) (name : string) (i : nat) :
  get_prop ctx "request" = Ok (VObj rprops) ->
  let item := {| parameterName := name; index := i; type := BODY |} in
  let pick (o : object) :=
    match assoc name o with
    | Some v => if truthy v then v else VObj o
    | None => VObj o
    end in
  (forall bprops, assoc "body" rprops = Some (VObj bprops) ->
     extract_arg host_call ctx nx item = Ok (pick bprops))
  /\ ((forall b, assoc "body" rprops = Some b -> truthy b = false) ->
      extract_arg host_call ctx nx item = Ok (pick rprops)).
Proof.
  intros Hr item pick. unfold item, pick, extract_arg, getParam, js_or; simpl.
  rewrite Hr; simpl. split.
  - intros bprops Hb. rewrite Hb; simpl.
    destruct (assoc name bprops) as [v|]; simpl; auto. now destruct (truthy v).
  - intro Hb. destruct (assoc "body" rprops) as [b|] eqn:Eb; simpl.
    + rewrite (Hb b eq_refl); simpl.
      destruct (assoc name rprops) as [v|]; simpl; auto. now destruct (truthy v).
    + destruct (assoc name rprops) as [v|]; simpl; auto. now destruct (truthy v).
Qed.

(** Without a body parser [@requestBody()] binds the request object;
    on the empty body, [@requestBody("toString")] binds the function that
    the body inherits. *)
Lemma requestBody_reads_body_or_request_witness :
  extract_arg no_host_call ctx_unparsed next_fn
    {| parameterName := "default"; index := 0; type := BODY |}
  = Ok (plain_object [("url", VStr "/")])
  /\ extract_arg no_host_call ctx_empty_body next_fn
       {| parameterName := "toString"; index := 0; type := BODY |}
     = Ok (VFn (FnHost "Object.prototype.toString")).
Proof.
  split.
  - apply (proj2 (@requestBody_reads_body_or_request _ no_host_call ctx_unparsed next_fn
                    ([("url", VStr "/")] ++ Object_members
                     ++ [("__proto__", Object_prototype)]) "default" 0 eq_refl)).
    intros b Hb. discriminate.
  - apply (proj1 (@requestBody_reads_body_or_request _ no_host_call ctx_empty_body next_fn
                    ([("body", plain_object [])] ++ Object_members
                     ++ [("__proto__", Object_prototype)]) "toString" 0 eq_refl)
             (Object_members ++ [("__proto__", Object_prototype)])).
    reflexivity.
Defined.

(** X7.  The two copies of [getParam] differ on one input only: away
    from a QUERY binding named "default" they return the same result; on
    it the copy with the guard returns the query collection
    ([source.query], or the source when that is falsy) without looking
    the name up. *)
Theorem getParam_copies_differ_on_query_default {E : Engine}
    (host_call : string -> list value -> Result value) (source : value)
    (paramType : option string) (name : string) :
  (is_type paramType "query" && (name =? "default")%string = false ->
   getParam_guarded host_call source paramType name = getParam host_call source paramType name)
  /\ (forall p, get_prop source "query" = Ok p ->
        getParam_guarded host_call source (Some "query") "default" = Ok (js_or p source)).
Proof.
  split.
  - intro H. unfold getParam_guarded, getParam. now rewrite H.
  - intros p Hp. unfold getParam_guarded; simpl. now rewrite Hp.
Qed.

Lemma getParam_copies_differ_on_query_default_witness :
  getParam_guarded no_host_call ctx_query (Some "query") "id"
  = getParam no_host_call ctx_query (Some "query") "id"
  /\ getParam_guarded no_host_call ctx_query (Some "query") "default"
     = Ok (VObj [("id", VStr "foo")]).
Proof.
  split.
  - apply (proj1 (getParam_copies_differ_on_query_default no_host_call ctx_query
                    (Some "query") "id")). reflexivity.
  - apply (proj2 (getParam_copies_differ_on_query_default no_host_call ctx_query
                    (Some "query") "default") (VObj [("id", VStr "foo")])). reflexivity.
Defined.

(** X8.  With parameter metadata, the argument array has one slot per
    position up to the largest bound index, then the context, then the
    continuation: its length is the largest index plus three, and a
    position below the largest index that no entry binds is a hole, which
    the method receives as [undefined]. *)
Theorem extractParameters_length_and_holes {E : Engine}
    (host_call : string -> list value -> Result value) (ctx nx : value)
    (params : list ParameterMetadata) :
  params <> [] ->
  (forall it, In it params -> exists v, extract_arg host_call ctx nx it = Ok v) ->
  exists args,
    extractParameters host_call ctx nx params = Ok args
    /\ length args = declared_slots params + 2
    /\ nth_error args (declared_slots params) = Some (Some ctx)
    /\ nth_error args (S (declared_slots params)) = Some (Some nx)
    /\ (forall j, j < declared_slots params -> ~ In j (map index params) ->
          nth_error args j = Some None
          /\ nth_error (spread args) j = Some VUndefined).
Proof.
  intros Hne Hok.
  exists (fold_left (store_arg host_call ctx nx) params [] ++ [Some ctx; Some nx]).
  assert (Hlen : length (fold_left (store_arg host_call ctx nx) params [])
                 = declared_slots params).
  { rewrite length_fold_store. simpl. lia. }
  split; [|split; [|split; [|split]]].
  - destruct params as [|p t]; [congruence|].
    unfold extractParameters. rewrite extract_loop_fold by assumption. reflexivity.
  - rewrite length_app, Hlen. reflexivity.
  - rewrite nth_error_app2 by lia. rewrite Hlen, Nat.sub_diag. reflexivity.
  - rewrite nth_error_app2 by lia. rewrite Hlen.
    replace (S (declared_slots params) - declared_slots params) with 1 by lia. reflexivity.
  - intros j Hj Hnot.
    assert (Hh : nth_error (fold_left (store_arg host_call ctx nx) params []
                            ++ [Some ctx; Some nx]) j = Some None).
    { rewrite nth_error_app1 by lia.
      rewrite fold_store_unbound by (auto; lia). simpl. now destruct j. }
    split; [exact Hh|]. unfold spread. rewrite nth_error_map, Hh. reflexivity.
Qed.

(** Only the third parameter is bound: the method receives
    (undefined, undefined, "42", context, continuation). *)
Lemma extractParameters_length_and_holes_witness :
  exists args,
    extractParameters no_host_call ctx_42 next_fn params_third_only = Ok args
    /\ length args = 5
    /\ spread args = [VUndefined; VUndefined; VStr "42"; ctx_42; next_fn]
    /\ nth_error args 1 = Some None.
Proof.
  destruct (@extractParameters_length_and_holes _ no_host_call ctx_42 next_fn
              params_third_only) as [args [Ha [Hl [_ [_ Hh]]]]].
  - discriminate.
  - intros it [<-|[]]. eexists. reflexivity.
  - exists args. split; [exact Ha|]. split; [exact Hl|]. split.
    + vm_compute in Ha. injection Ha as <-. reflexivity.
    + apply Hh; [simpl; lia | simpl; intuition discriminate].
Defined.

(** X9.  When several entries carry the same index, the one that comes
    last in the list is the one the method receives: an entry that no
    later entry shares its index with has its value at its index. *)
Theorem later_entry_wins {E : Engine}
    (host_call : string -> list value -> Result value) (ctx nx : value)
    (pre post : list ParameterMetadata) (it : ParameterMetadata) :
  (forall x, In x (pre ++ it :: post) -> exists v, extract_arg host_call ctx nx x = Ok v) ->
  ~ In (index it) (map index post) ->
  exists args v,
    extractParameters host_call ctx nx (pre ++ it :: post) = Ok args
    /\ extract_arg host_call ctx nx it = Ok v
    /\ nth_error args (index it) = Some (Some v).
Proof.
  intros Hok Hnot.
  destruct (Hok it) as [v Hv]; [apply in_or_app; right; now left|].
  exists (fold_left (store_arg host_call ctx nx) (pre ++ it :: post) []
          ++ [Some ctx; Some nx]), v.
  split; [|split; [exact Hv|]].
  - destruct (pre ++ it :: post) as [|p t] eqn:Ep.
    + destruct pre; discriminate.
    + unfold extractParameters. rewrite extract_loop_fold by assumption. reflexivity.
  - assert (H : nth_error (fold_left (store_arg host_call ctx nx) (pre ++ it :: post) [])
                  (index it) = Some (Some v)).
    { rewrite fold_left_app. simpl. apply fold_step_keeps; auto.
      unfold store_arg at 1, arg_value. rewrite Hv. apply nth_error_array_set_same. }
    rewrite nth_error_app1; auto. apply nth_error_Some. congruence.
Qed.

(** PARAMS("id") and then QUERY("count"), both at index 0, on
    GET /42?count=5: the method receives "5". *)
Lemma later_entry_wins_witness :
  exists args,
    extractParameters no_host_call ctx_42 next_fn params_same_index = Ok args
    /\ nth_error args 0 = Some (Some (VStr "5")).
Proof.
  destruct (@later_entry_wins _ no_host_call ctx_42 next_fn
              [ {| parameterName := "id"; index := 0; type := PARAMS |} ] []
              {| parameterName := "count"; index := 0; type := QUERY |})
    as [args [v [Ha [Hv Hn]]]].
  - intros x [<-|[<-|[]]]; eexists; reflexivity.
  - simpl. tauto.
  - exists args. split; [exact Ha|]. vm_compute in Hv. injection Hv as <-. exact Hn.
Defined.

(** ** The invocation handler *)

(** X11.  The invocation handler catches nothing: a failure of the
    argument extraction, of the lookup of the controller by name, or of
    the method call is the failure of the handler; a controller that has
    no function under the method name fails with a TypeError, and a
    method of the application that throws makes the handler throw. *)
Theorem invocation_handler_failures_propagate {E : Engine}
    (host_call : string -> list value -> Result value)
    (host_method : string -> list value -> Cont -> Request -> Result (value * Request))
    (s : InversifyKoaServer)
    (controllerName key : string) (params : list ParameterMetadata) (k : Cont)
    (rq : Request) :
  let run := invocation_handler host_call host_method s controllerName key params k rq in
  (forall e, extractParameters host_call (req_ctx rq) next_fn params = Throw e ->
     run = Throw e)
  /\ (forall args e,
        extractParameters host_call (req_ctx rq) next_fn params = Ok args ->
        getNamed_Controller (_container s) controllerName = Throw e ->
        run = Throw e)
  /\ (forall args ctl e,
        extractParameters host_call (req_ctx rq) next_fn params = Ok args ->
        getNamed_Controller (_container s) controllerName = Ok ctl ->
        call_live host_call host_method ctl key (spread args) k rq = Throw e ->
        run = Throw e)
  /\ (forall args cprops,
        extractParameters host_call (req_ctx rq) next_fn params = Ok args ->
        getNamed_Controller (_container s) controllerName = Ok (VObj cprops) ->
        assoc key cprops = None ->
        run = Throw (TypeError "is not a function"))
  /\ (forall args ctl name e,
        extractParameters host_call (req_ctx rq) next_fn params = Ok args ->
        getNamed_Controller (_container s) controllerName = Ok ctl ->
        get_prop ctl key = Ok (VFn (FnHost name)) ->
        host_method name (spread args) k rq = Throw e ->
        run = Throw e).
Proof.
  simpl. unfold invocation_handler. split; [|split; [|split; [|split]]].
  - intros e H. now rewrite H.
  - intros args e H1 H2. rewrite H1; simpl. now rewrite H2.
  - intros args ctl e H1 H2 H3. rewrite H1; simpl. rewrite H2; simpl. now rewrite H3.
  - intros args cprops H1 H2 H3. rewrite H1; simpl. rewrite H2; simpl.
    unfold call_live; simpl. now rewrite H3.
  - intros args ctl name e H1 H2 H3 H4. rewrite H1; simpl. rewrite H2; simpl.
    unfold call_live. rewrite H3. simpl. now rewrite H4.
Qed.

(** A controller that is not bound under the name, a method the
    controller does not have, and a context without a request object. *)
Lemma invocation_handler_failures_propagate_witness :
  invocation_handler test_host_call (pure_method test_host_call)
    (test_server TestController)
    "OtherController" "getTest" param_id (fun r => Ok r) (fresh_request ctx_foo)
  = Throw (NotBound "OtherController")
  /\ invocation_handler test_host_call (pure_method test_host_call)
       (test_server TestController)
       "TestController" "missing" param_id (fun r => Ok r) (fresh_request ctx_foo)
     = Throw (TypeError "is not a function")
  /\ invocation_handler test_host_call (pure_method test_host_call)
       (test_server TestController)
       "TestController" "getTest"
       [ {| parameterName := "default"; index := 0; type := REQUEST |} ]
       (fun r => Ok r) (fresh_request ctx_no_state)
     = Throw (TypeError "Cannot read property of undefined or null").
Proof.
  split; [|split].
  - apply (proj1 (proj2 (@invocation_handler_failures_propagate _ test_host_call
             (pure_method test_host_call)
             (test_server TestController) "OtherController" "getTest" param_id
             (fun r => Ok r) (fresh_request ctx_foo)))
             [Some (VStr "foo"); Some ctx_foo; Some next_fn]); reflexivity.
  - apply (proj1 (proj2 (proj2 (proj2 (@invocation_handler_failures_propagate _
             test_host_call (pure_method test_host_call)
             (test_server TestController) "TestController" "missing" param_id
             (fun r => Ok r) (fresh_request ctx_foo)))))
             [Some (VStr "foo"); Some ctx_foo; Some next_fn]
             ([("getTest", VFn (FnHost "TestController.getTest"))] ++ Object_members
              ++ [("__proto__", Object_prototype)])); reflexivity.
  - apply (proj1 (@invocation_handler_failures_propagate _ test_host_call
             (pure_method test_host_call)
             (test_server TestController) "TestController" "getTest"
             [ {| parameterName := "default"; index := 0; type := REQUEST |} ]
             (fun r => Ok r) (fresh_request ctx_no_state))). reflexivity.
Defined.

(** ** The principal middleware, continued *)






(** ** The build, continued *)

(** X14.  [build] is not idempotent: where nothing stops the first
    call nor a second call on the same server, the second call registers
    every route a second time, after the routes of the first call; with
    no configuration functions the application ends with the principal
    middleware and the router mounted twice. *)
Theorem build_twice_registers_twice {L : RouterLib} (s : InversifyKoaServer) :
  build_ready s = true ->
  build_ready (after_build s (snd (build_run s))) = true ->
  exists a1 w1 a2 w2 added,
    build s = Ok (a1, w1)
    /\ build (after_build s w1) = Ok (a2, w2)
    /\ router_stack (router w1) = router_stack (_router s) ++ added
    /\ router_stack (router w2) = router_stack (_router s) ++ added ++ added
    /\ filter is_register (log w1) = map EvRegister added
    /\ filter is_register (log w2) = map EvRegister added
    /\ (_configFn s = None -> _errorConfigFn s = None ->
        a2 = _app s ++ [HPrincipal; HRoutes; HPrincipal; HRoutes]).
Proof.
  intros H1 H2.
  pose proof (build_ok s H1) as Hb1.
  rewrite (proj1 (build_is_build_run s _ _) Hb1) in H2. cbn [snd] in H2.
  pose proof (build_ok _ H2) as Hb2.
  eexists. eexists. eexists. eexists. exists (concat (spec_all_routes s)).
  split; [exact Hb1|]. split; [exact Hb2|].
  split; [reflexivity|]. split; [simpl; now rewrite <- app_assoc|].
  split; [exact (proj1 (build_returned_registrations s Hb1))|].
  split; [exact (proj1 (build_returned_registrations _ Hb2))|].
  intros Hc He. unfold final_app, mounted_app, configured_app. simpl.
  rewrite Hc, He. simpl. now rewrite <- !app_assoc.
Qed.

(** The test server built twice: two routes GET /:id. *)
Lemma build_twice_registers_twice_witness :
  exists w1 a2 w2,
    build (test_server TestController) = Ok ([HPrincipal; HRoutes], w1)
    /\ build (after_build (test_server TestController) w1) = Ok (a2, w2)
    /\ a2 = [HPrincipal; HRoutes; HPrincipal; HRoutes]
    /\ router_stack (router w2) = [getTest_route; getTest_route].
Proof.
  destruct (@build_twice_registers_twice sample_router_lib (test_server TestController)
              eq_refl eq_refl)
    as [a1 [w1 [a2 [w2 [added [H1 [H2 [H3 [H4 [_ [_ H5]]]]]]]]]]].
  pose proof H1 as H1'. vm_compute in H1'. injection H1' as Ha Hw.
  rewrite <- Ha in H1.
  exists w1, a2, w2. split; [exact H1|]. split; [exact H2|].
  split; [exact (H5 eq_refl eq_refl)|].
  rewrite H4. rewrite <- Hw in H3. simpl in H3. rewrite <- H3. reflexivity.
Defined.

(** X15.  The root path and the mounting of the router, whatever the
    outcome of the build.  With the root path "/" no prefix is set; with
    any other root path the prefix is set at most once, before every call
    that registers a route, and exactly once unless the configuration
    function threw.  The router is mounted on the application at most
    once, and only after every controller route was registered; with no
    controller bound it is never mounted and the build throws.  A build
    that nothing stops returns with the router mounted and the prefix of
    the router set to the root path when that is not "/". *)
Theorem build_prefix_and_mount {L : RouterLib} (s : InversifyKoaServer) :
  let res := fst (build_run s) in
  let w := snd (build_run s) in
  (rootPath (_routingConfig s) = DEFAULT_ROUTING_ROOT_PATH -> filter is_prefix (log w) = [])
  /\ (rootPath (_routingConfig s) <> DEFAULT_ROUTING_ROOT_PATH ->
      (filter is_prefix (log w) = [EvPrefix (rootPath (_routingConfig s))]
       \/ (filter is_prefix (log w) = []
           /\ config_ok (_configFn s) (_app s ++ [HPrincipal]) = false))
      /\ forall r, In (EvRegister r) (log w) ->
           before (EvPrefix (rootPath (_routingConfig s))) (EvRegister r) (log w))
  /\ (In (EvUse HRoutes) (log w) ->
      filter is_mount (log w) = [EvUse HRoutes]
      /\ filter is_register (log w) = map EvRegister (concat (spec_all_routes s))
      /\ forall r, In (EvRegister r) (log w) ->
           before (EvRegister r) (EvUse HRoutes) (log w))
  /\ (bound_Controllers (_container s) = [] ->
      ~ In (EvUse HRoutes) (log w) /\ exists e, res = Throw e)
  /\ (build_ready s = true ->
      (exists a, res = Ok a)
      /\ In (EvUse HRoutes) (log w)
      /\ router_prefix (router w)
         = if custom_root s then Some (rootPath (_routingConfig s))
           else router_prefix (_router s)).
Proof.
  intros res w. subst res w.
  destruct (build_run_shape s) as [pre [done [rest [tail [Hl [Hd [_ [Hp Ht]]]]]]]].
  assert (Hpre : pre = [] \/ pre = (if custom_root s
                                    then [EvPrefix (rootPath (_routingConfig s))] else []))
    by (destruct Hp as [[-> _]| ->]; auto).
  assert (Htail : tail = [] \/ tail = [EvUse HRoutes]
                                      ++ opt_event (_errorConfigFn s) EvErrorConfigFn)
    by (destruct Ht as [[-> _]|[_ ->]]; auto).
  assert (Hreg : forall r, In (EvRegister r) (log (snd (build_run s))) -> In r done).
  { intros r Hr. rewrite Hl in Hr.
    destruct (shape_registrations (_configFn s) (_errorConfigFn s) done
                (rootPath (_routingConfig s)) (custom_root s) Hpre Htail) as [_ H].
    now apply H. }
  assert (Hpf : filter is_prefix (log (snd (build_run s))) = pre).
  { rewrite Hl. simpl. rewrite !filter_app, filter_map_EvRegister_none by reflexivity.
    replace (filter is_prefix (opt_event (_configFn s) EvConfigFn)) with (@nil Event)
      by (now destruct (_configFn s)).
    replace (filter is_prefix tail) with (@nil Event)
      by (destruct Htail as [->| ->]; [reflexivity|now destruct (_errorConfigFn s)]).
    simpl. rewrite app_nil_r.
    destruct Hpre as [->| ->]; [reflexivity|now destruct (custom_root s)]. }
  split; [|split; [|split; [|split]]].
  - intro Hroot. rewrite Hpf. destruct Hpre as [->| ->]; [reflexivity|].
    unfold custom_root. rewrite Hroot. reflexivity.
  - intro Hroot. apply String.eqb_neq in Hroot.
    assert (Hcr : custom_root s = true) by (unfold custom_root; now rewrite Hroot).
    rewrite Hcr in *. split.
    + rewrite Hpf. destruct Hp as [[-> [-> ->]]| ->]; [right|now left].
      split; [reflexivity|].
      pose proof (build_run_outcome s) as B.
      destruct (config_ok (_configFn s) (_app s ++ [HPrincipal])) eqn:Eok; [|reflexivity].
      exfalso. inversion B as [fn e Hfn He Hres Hw | e d r Hok Hd' Hall Hres Hw
                               | fn e Hok Hne Hall Hfn He Hres Hw
                               | Hok Hne Hall He Hres Hw];
        rewrite <- Hw in Hl; simpl in Hl.
      * unfold config_ok in Eok. rewrite Hfn, He in Eok. discriminate.
      * unfold head_log in Hl. rewrite Hcr in Hl. simpl in Hl.
        destruct (_configFn s); simpl in Hl; discriminate.
      * unfold head_log in Hl. rewrite Hcr in Hl. simpl in Hl.
        destruct (_configFn s); simpl in Hl; discriminate.
      * unfold final_log, head_log in Hl. rewrite Hcr in Hl. simpl in Hl.
        destruct (_configFn s); simpl in Hl; discriminate.
    + intros r Hr. pose proof (Hreg r Hr) as Hin. rewrite Hl.
      destruct Hp as [[_ [-> _]]| ->]; [destruct Hin|].
      destruct (in_split _ _ Hin) as [d1 [d2 ->]].
      exists ([EvUse HPrincipal] ++ opt_event (_configFn s) EvConfigFn),
             (map EvRegister d1), (map EvRegister d2 ++ tail).
      rewrite map_app. simpl. now rewrite <- !app_assoc.
  - intro Hm. rewrite Hl in Hm.
    apply (@shape_mount (_configFn s) pre tail done _ _ Hpre) in Hm.
    destruct Ht as [[-> _]|[-> ->]]; [destruct Hm|].
    rewrite app_nil_r in Hd. subst done. split; [|split].
    + rewrite Hl, (@shape_filter (_configFn s) pre _ (concat (spec_all_routes s)) _ _
                     Hpre is_mount) by reflexivity.
      destruct (_configFn s), (_errorConfigFn s); reflexivity.
    + rewrite Hl.
      apply (shape_registrations (_configFn s) (_errorConfigFn s)
               (concat (spec_all_routes s))
               (rootPath (_routingConfig s)) (custom_root s) Hpre). now right.
    + intros r Hr. rewrite Hl.
      apply (@shape_register_before (_configFn s) pre _ (concat (spec_all_routes s)) r
               (EvUse HRoutes) [] (opt_event (_errorConfigFn s) EvErrorConfigFn));
        [now apply Hreg | reflexivity].
  - intro Hnil. pose proof (build_run_outcome s) as B.
    inversion B as [fn e Hfn He Hres Hw | e d r Hok Hd' Hall Hres Hw
                    | fn e Hok Hne Hall Hfn He Hres Hw
                    | Hok Hne Hall He Hres Hw]; try congruence.
    + split; [|eauto]. simpl. intuition discriminate.
    + split; [|eauto]. simpl. unfold head_log. intro Hin.
      assert (Hd0 : d = []).
      { unfold spec_all_routes in Hd'. rewrite Hnil in Hd'. simpl in Hd'.
        destruct d; [reflexivity|discriminate]. }
      subst d. simpl in Hin. rewrite app_nil_r in Hin.
      destruct Hin as [Hin|Hin]; [discriminate|].
      apply in_app_or in Hin. destruct Hin as [Hin|Hin].
      * destruct (_configFn s); simpl in Hin; intuition discriminate.
      * destruct (custom_root s); simpl in Hin; intuition discriminate.
  - intro Hr. pose proof (build_ok s Hr) as Hb.
    rewrite (proj1 (build_is_build_run s _ _) Hb). cbn [fst snd log router router_prefix].
    split; [eauto|]. split.
    + rewrite final_log_shape.
      apply in_or_app. right. apply in_or_app. right. apply in_or_app. right.
      apply in_or_app. right. now left.
    + unfold prefixed. now destruct (custom_root s).
Qed.

(** The sample container under "/api/v1" and under the default root,
    and the server with no controller. *)
Lemma build_prefix_and_mount_witness :
  (filter is_prefix (log (snd (build_run api_server))) = [EvPrefix "/api/v1"]
   /\ router_prefix (router (snd (build_run api_server))) = Some "/api/v1")
  /\ (filter is_prefix (log (snd (build_run chain_server))) = []
      /\ router_prefix (router (snd (build_run chain_server))) = None)
  /\ (~ In (EvUse HRoutes) (log (snd (build_run empty_server)))
      /\ exists e, fst (build_run empty_server) = Throw e).
Proof.
  split; [|split].
  - destruct (build_prefix_and_mount api_server) as [_ [Hp [_ [_ Hr]]]].
    destruct Hp as [[H|[_ H]] _]; [discriminate| |discriminate].
    split; [exact H|]. exact (proj2 (proj2 (Hr eq_refl))).
  - destruct (build_prefix_and_mount chain_server) as [Hp [_ [_ [_ Hr]]]].
    split; [exact (Hp eq_refl)|]. exact (proj2 (proj2 (Hr eq_refl))).
  - destruct (build_prefix_and_mount empty_server) as [_ [_ [_ [Hn _]]]].
    exact (Hn eq_refl).
Defined.

(** ** The older middleware resolution *)

(** X16.  The [resolveMidleware] of the second copy of the server
    (get inside try/catch) returns one handler per item and never throws.
    It agrees with [resolveMiddleware] on every list on which the
    container fails on no bound item and throws on every item that is not
    bound, and none of whose items resolves to a BaseMiddleware.  For an
    item that does, it hands the instance itself to the router where
    [resolveMiddleware] hands the forwarding adapter; for a bound item on
    which the container throws, it hands the item itself where
    [resolveMiddleware] throws. *)
Theorem resolveMidleware_agrees_without_base_middleware
    (c : Container) (ms : list Middleware) :
  length (resolveMidleware c ms) = length ms
  /\ (unbound_throws c ms -> no_base_middleware c ms -> resolvable c ms = true ->
      resolveMiddleware c ms = Ok (resolveMidleware c ms))
  /\ (forall i m n, nth_error ms i = Some m ->
        isBound c m = true -> container_get c m = Ok (IBaseMiddleware n) ->
        nth_error (resolveMidleware c ms) i = Some (HObject n)
        /\ forall hs, resolveMiddleware c ms = Ok hs -> nth_error hs i = Some (HAdapter n))
  /\ (forall i m e, nth_error ms i = Some m ->
        isBound c m = true -> container_get c m = Throw e ->
        nth_error (resolveMidleware c ms) i = Some (HItem m)
        /\ exists e', resolveMiddleware c ms = Throw e').
Proof.
  split; [apply length_map|]. split; [|split].
  - intros Hu Hno Hr. rewrite (resolveMiddleware_ok c ms Hr). f_equal.
    unfold resolveMidleware. apply map_ext_in. intros m Hm.
    assert (Hg : gets c m = true).
    { unfold resolvable in Hr. rewrite forallb_forall in Hr. now apply Hr. }
    unfold spec_resolve, gets in *.
    destruct (isBound c m) eqn:Eb; simpl in Hg.
    + destruct (container_get c m) as [[n|n|n]|e] eqn:Eg; auto; try discriminate.
      exfalso. exact (Hno m n Hm Eg).
    + destruct (Hu m Hm Eb) as [e ->]. reflexivity.
  - intros i m n Hi Hb Hg. split.
    + unfold resolveMidleware. rewrite nth_error_map, Hi. simpl. now rewrite Hg.
    + intros hs Hhs. destruct (resolveMiddleware_inv c ms Hhs) as [_ ->].
      rewrite nth_error_map, Hi. simpl. unfold spec_resolve. now rewrite Hb, Hg.
  - intros i m e Hi Hb Hg. split.
    + unfold resolveMidleware. rewrite nth_error_map, Hi. simpl. now rewrite Hg.
    + destruct (resolveMiddleware c ms) as [hs|e'] eqn:Er; [|eauto].
      exfalso. destruct (resolveMiddleware_inv c ms Er) as [Hr _].
      unfold resolvable in Hr. rewrite forallb_forall in Hr.
      specialize (Hr m (nth_error_In _ _ Hi)). unfold gets in Hr.
      rewrite Hb, Hg in Hr. discriminate.
Qed.

Lemma resolveMidleware_agrees_without_base_middleware_witness :
  resolveMiddleware chain_container [mw_A; mw_B; mw_U]
  = Ok (resolveMidleware chain_container [mw_A; mw_B; mw_U])
  /\ nth_error (resolveMidleware chain_container [mw_A; mw_D]) 1
     = Some (HObject "TestMiddleware")
  /\ nth_error (resolveMidleware chain_container [mw_A; mw_X]) 1 = Some (HItem mw_X).
Proof.
  destruct (resolveMidleware_agrees_without_base_middleware chain_container
              [mw_A; mw_B; mw_U]) as [_ [Hag _]].
  destruct (resolveMidleware_agrees_without_base_middleware chain_container
              [mw_A; mw_D]) as [_ [_ [Hd _]]].
  destruct (resolveMidleware_agrees_without_base_middleware chain_container
              [mw_A; mw_X]) as [_ [_ [_ Hx]]].
  split; [|split].
  - apply Hag.
    + intros m [<-|[<-|[<-|[]]]] Hb; try discriminate; eexists; reflexivity.
    + intros m n [<-|[<-|[<-|[]]]]; discriminate.
    + reflexivity.
  - exact (proj1 (Hd 1 mw_D "TestMiddleware" eq_refl eq_refl eq_refl)).
  - exact (proj1 (Hx 1 mw_X _ eq_refl eq_refl eq_refl)).
Defined.

(** ** When extraction cannot fail *)

(** X17.  Argument extraction fails only for want of an object to read
    from: on a context that has a request and a response object, every
    binding other than COOKIES extracts a value, whatever its name; a
    COOKIES binding does so when [ctx.cookies] is a cookie accessor. *)
Theorem extraction_succeeds_on_objects {E : Engine}
    (host_call : string -> list value -> Result value) (ctx nx req res : value)
    (item : ParameterMetadata) :
  get_prop ctx "request" = Ok req -> nullish req = false ->
  get_prop ctx "response" = Ok res -> nullish res = false ->
  (type item <> COOKIES -> exists v, extract_arg host_call ctx nx item = Ok v)
  /\ (forall jar, get_prop ctx "cookies" = Ok (cookie_accessor jar) ->
        exists v, extract_arg host_call ctx nx item = Ok v).
Proof.
  intros Hreq Hnreq Hres Hnres.
  assert (Hctx : nullish ctx = false) by (destruct ctx; simpl in *; auto; discriminate).
  split.
  - intro Hty. unfold extract_arg.
    destruct (type item); try congruence; eauto;
      rewrite ?Hreq, ?Hres; simpl bind; apply getParam_ok; auto.
  - intros jar Hjar. unfold extract_arg.
    destruct (type item); eauto;
      rewrite ?Hreq, ?Hres; simpl bind; try (apply getParam_ok; auto; fail).
    now apply getParam_cookies_ok with (jar := jar).
Qed.

Lemma extraction_succeeds_on_objects_witness :
  (exists v, extract_arg no_host_call ctx_unparsed next_fn
               {| parameterName := "anything"; index := 0; type := HEADERS |} = Ok v)
  /\ (exists v, extract_arg no_host_call ctx_cookie next_fn
                  {| parameterName := "anything"; index := 0; type := COOKIES |} = Ok v).
Proof.
  split.
  - apply (proj1 (@extraction_succeeds_on_objects _ no_host_call ctx_unparsed next_fn
                    (plain_object [("url", VStr "/")]) (plain_object [])
                    {| parameterName := "anything"; index := 0; type := HEADERS |}
                    eq_refl eq_refl eq_refl eq_refl)).
    discriminate.
  - apply (proj2 (@extraction_succeeds_on_objects _ no_host_call ctx_cookie next_fn
                    (plain_object [("body", VUndefined); ("headers", plain_object []);
                                   ("query", VObj [])])
                    (plain_object [])
                    {| parameterName := "anything"; index := 0; type := COOKIES |}
                    eq_refl eq_refl eq_refl eq_refl) [("cookie", "hey")]).
    reflexivity.
Defined.
